(** * Risk-detection dashboard: aggregation, time window, table view model

    A shallow embedding of the logic of the dashboard:

    - [calculateStats]                          (src/utils/mockData.ts)
    - [rawStats], [processedData], [handleSort] and the text of
      [handleExport]                            (src/components/EnterpriseTable.tsx)
    - [dailyData] and [drillDownData]           (src/components/DailyReportTable.tsx)
    - the [dailyData] of DailyReviewReportTable
    - the aggregations of the three charts      (src/components/Charts.tsx)
    - [filteredData] and the handlers of the filter bar (the App component)
    - the enums and record types                (the types module)

    Modelling conventions.

    - A JavaScript [number] that holds a counter is an integer of [Z]; a
      rate of [calculateStats] is the exact rational of [Q] that its
      formula denotes.  Rounding of IEEE doubles, [NaN] and the infinities
      are outside the model; the percentages of the drill-down, whose
      rounded values would matter, are computed by a parameter that stands
      for the binary64 operation.
    - An optional field ([count?: number]) is an [option]; [None] is
      [undefined].
    - A [Date] is its time value: milliseconds since the epoch, in UTC, as
      a [Z].  Local time is UTC plus a fixed offset [tz] (milliseconds east
      of Greenwich); daylight saving changes are outside the model.  A
      record's [callTime] holds the time value of [new Date(d.callTime)],
      and the clock enters the filter as the three local calendar fields
      that the code reads from [now].
    - A string is a [String.string]; its characters stand for the code units
      U+0000 .. U+00FF.
    - A [Map] is an association list in insertion order, which is the order
      [Map.prototype.values] iterates in; a field update on the object that
      [get] returned is a [set] under the same key. *)

From Stdlib Require Import ZArith QArith List String Ascii Bool Lia.
From Stdlib Require Import Sorting.Sorted Sorting.Permutation DecimalString.
Import ListNotations.

Open Scope Z_scope.

(** ** The enums and records of the types module *)

Module RiskLevel.
Inductive t := HIGH | MEDIUM | LOW | NORMAL.
End RiskLevel.

Module ReviewResult.
Inductive t :=
  TRUE_FRAUD | SUSPECTED_FRAUD | ILLEGAL_BUSINESS | FALSE_POSITIVE | PENDING.
End ReviewResult.

Module ReviewStatus.
Inductive t := REVIEWED | PENDING.
End ReviewStatus.

Module RiskRecord.
Record t := mk {
  id : string;
  enterpriseId : string;
  enterpriseName : string;
  customerNumber : string;
  callTime : Z;                 (* the instant the ISO string denotes *)
  duration : Z;
  riskLevel : RiskLevel.t;
  fraudType : string;
  riskPoints : list string;
  reviewStatus : ReviewStatus.t;
  reviewResult : ReviewResult.t;
  reviewer : option string;
  count : option Z
}.

(** The same record with another [count]. *)
Definition with_count (c : option Z) (d : t) : t :=
  mk (id d) (enterpriseId d) (enterpriseName d) (customerNumber d)
     (callTime d) (duration d) (riskLevel d) (fraudType d) (riskPoints d)
     (reviewStatus d) (reviewResult d) (reviewer d) c.
End RiskRecord.

Module DashboardStats.
Record t := mk {
  totalDetections : Z;
  highRiskCount : Z;
  mediumRiskCount : Z;
  lowRiskCount : Z;
  highRiskReviewedCount : Z;
  mediumRiskReviewedCount : Z;
  reviewedCount : Z;
  reviewCompletionRate : Q;
  highRiskRate : Q;
  trueFraudCount : Z;
  suspectedFraudCount : Z;
  illegalBusinessCount : Z;
  falsePositiveCount : Z;
  accuracyRate : Q
}.
End DashboardStats.

(** ** calculateStats (src/utils/mockData.ts) *)

(** [c || 1] on an optional number: [undefined] and [0] are falsy. *)
Definition orOne (c : option Z) : Z :=
  match c with
  | None => 1
  | Some 0 => 1
  | Some n => n
  end.

(** The local variables of [calculateStats]. *)
Module Tally.
Record t := mk {
  total : Z;
  highRisk : Z;
  medRisk : Z;
  lowRisk : Z;
  highRiskReviewed : Z;
  mediumRiskReviewed : Z;
  reviewedTotal : Z;
  trueFraud : Z;
  suspFraud : Z;
  illegal : Z;
  falsePos : Z
}.

Definition zero : t := mk 0 0 0 0 0 0 0 0 0 0 0.
End Tally.

(** One turn of [for (const d of data)]. *)
Definition tallyRecord (s : Tally.t) (d : RiskRecord.t) : Tally.t :=
  let n := orOne (RiskRecord.count d) in
  let level := RiskRecord.riskLevel d in
  let result := RiskRecord.reviewResult d in
  let reviewed :=
    match RiskRecord.reviewStatus d with
    | ReviewStatus.REVIEWED => true
    | ReviewStatus.PENDING => false
    end in
  {| Tally.total := Tally.total s + n;
     Tally.highRisk :=
       match level with
       | RiskLevel.HIGH => Tally.highRisk s + n
       | _ => Tally.highRisk s
       end;
     Tally.medRisk :=
       match level with
       | RiskLevel.MEDIUM => Tally.medRisk s + n
       | _ => Tally.medRisk s
       end;
     Tally.lowRisk :=
       match level with
       | RiskLevel.LOW => Tally.lowRisk s + n
       | _ => Tally.lowRisk s
       end;
     Tally.highRiskReviewed :=
       match reviewed, level with
       | true, RiskLevel.HIGH => Tally.highRiskReviewed s + n
       | _, _ => Tally.highRiskReviewed s
       end;
     Tally.mediumRiskReviewed :=
       match reviewed, level with
       | true, RiskLevel.MEDIUM => Tally.mediumRiskReviewed s + n
       | _, _ => Tally.mediumRiskReviewed s
       end;
     Tally.reviewedTotal :=
       if reviewed then Tally.reviewedTotal s + n else Tally.reviewedTotal s;
     Tally.trueFraud :=
       match reviewed, result with
       | true, ReviewResult.TRUE_FRAUD => Tally.trueFraud s + n
       | _, _ => Tally.trueFraud s
       end;
     Tally.suspFraud :=
       match reviewed, result with
       | true, ReviewResult.SUSPECTED_FRAUD => Tally.suspFraud s + n
       | _, _ => Tally.suspFraud s
       end;
     Tally.illegal :=
       match reviewed, result with
       | true, ReviewResult.ILLEGAL_BUSINESS => Tally.illegal s + n
       | _, _ => Tally.illegal s
       end;
     Tally.falsePos :=
       match reviewed, result with
       | true, ReviewResult.FALSE_POSITIVE => Tally.falsePos s + n
       | _, _ => Tally.falsePos s
       end |}.

(** [den > 0 ? (num / den) * 100 : 0]. *)
Definition percentOf (num den : Z) : Q :=
  if 0 <? den then (inject_Z num / inject_Z den * inject_Z 100)%Q else 0%Q.

Definition calculateStats (data : list RiskRecord.t) : DashboardStats.t :=
  let s := fold_left tallyRecord data Tally.zero in
  let validDetections :=
    Tally.trueFraud s + Tally.suspFraud s + Tally.illegal s in
  let reviewTargetCount := Tally.highRisk s + Tally.medRisk s in
  let reviewedTargetCount :=
    Tally.highRiskReviewed s + Tally.mediumRiskReviewed s in
  {| DashboardStats.totalDetections := Tally.total s;
     DashboardStats.highRiskCount := Tally.highRisk s;
     DashboardStats.mediumRiskCount := Tally.medRisk s;
     DashboardStats.lowRiskCount := Tally.lowRisk s;
     DashboardStats.highRiskReviewedCount := Tally.highRiskReviewed s;
     DashboardStats.mediumRiskReviewedCount := Tally.mediumRiskReviewed s;
     DashboardStats.reviewedCount := Tally.reviewedTotal s;
     DashboardStats.reviewCompletionRate :=
       percentOf reviewedTargetCount reviewTargetCount;
     DashboardStats.highRiskRate := percentOf (Tally.highRisk s) (Tally.total s);
     DashboardStats.trueFraudCount := Tally.trueFraud s;
     DashboardStats.suspectedFraudCount := Tally.suspFraud s;
     DashboardStats.illegalBusinessCount := Tally.illegal s;
     DashboardStats.falsePositiveCount := Tally.falsePos s;
     DashboardStats.accuracyRate :=
       percentOf validDetections (Tally.reviewedTotal s) |}.

(** ** Strings: the String.prototype methods the table uses *)

Definition charCode (c : ascii) : N := N_of_ascii c.

(** The code units that [trim] strips: TAB, LF, VT, FF, CR, SP and NBSP. *)
Definition isWhiteSpace (c : ascii) : bool :=
  let n := charCode c in
  (((9 <=? n) && (n <=? 13)) || (n =? 32) || (n =? 160))%N.

(** Lower-casing of one code unit: A-Z and the Latin-1 capitals
    (U+00C0 .. U+00DE without the multiplication sign U+00D7). *)
Definition lowerChar (c : ascii) : ascii :=
  let n := charCode c in
  if (((65 <=? n) && (n <=? 90))
      || ((192 <=? n) && (n <=? 222) && negb (n =? 215)))%N
  then ascii_of_N (n + 32)
  else c.

Fixpoint toLowerCase (s : string) : string :=
  match s with
  | EmptyString => EmptyString
  | String c s' => String (lowerChar c) (toLowerCase s')
  end.

Fixpoint trimStart (s : string) : string :=
  match s with
  | EmptyString => EmptyString
  | String c s' => if isWhiteSpace c then trimStart s' else s
  end.

Fixpoint trimEnd (s : string) : string :=
  match s with
  | EmptyString => EmptyString
  | String c s' =>
      match trimEnd s' with
      | EmptyString => if isWhiteSpace c then EmptyString else String c EmptyString
      | t => String c t
      end
  end.

Definition trim (s : string) : string := trimEnd (trimStart s).

(** A string in a condition: only the empty string is falsy. *)
Definition truthy (s : string) : bool :=
  match s with
  | EmptyString => false
  | String _ _ => true
  end.

(** [s.startsWith(t)]. *)
Fixpoint startsWith (s t : string) {struct t} : bool :=
  match t with
  | EmptyString => true
  | String b t' =>
      match s with
      | EmptyString => false
      | String a s' => Ascii.eqb a b && startsWith s' t'
      end
  end.

(** [s.includes(t)]: [t] occurs in [s] at some position. *)
Fixpoint includes (s t : string) : bool :=
  startsWith s t
  || match s with
     | EmptyString => false
     | String _ s' => includes s' t
     end.

(** ** Map: an association list in insertion order *)

Section JsMap.
Context {K V : Type}.
Variable keq : K -> K -> bool.

Fixpoint map_has (m : list (K * V)) (k : K) : bool :=
  match m with
  | [] => false
  | (k', _) :: m' => keq k' k || map_has m' k
  end.

Fixpoint map_get (m : list (K * V)) (k : K) : option V :=
  match m with
  | [] => None
  | (k', v) :: m' => if keq k' k then Some v else map_get m' k
  end.

(** [set] on a present key keeps the entry's place; a new key goes last.
    A write through the reference that [get] returned is a [set] on the
    key it was read under. *)
Fixpoint map_set (m : list (K * V)) (k : K) (v : V) : list (K * V) :=
  match m with
  | [] => [(k, v)]
  | (k', v') :: m' =>
      if keq k' k then (k', v) :: m' else (k', v') :: map_set m' k v
  end.

Definition map_values (m : list (K * V)) : list V := map snd m.
End JsMap.

(** ** Array.prototype.sort with a comparator: a stable sort *)

Section Sort.
Context {A : Type}.
Variable cmp : A -> A -> Z.

Fixpoint insertBy (x : A) (l : list A) : list A :=
  match l with
  | [] => [x]
  | y :: l' => if cmp x y <=? 0 then x :: l else y :: insertBy x l'
  end.

Definition sortBy (l : list A) : list A := fold_right insertBy [] l.
End Sort.

(** ** EnterpriseTable (src/components/EnterpriseTable.tsx) *)

Module SortKey.
Inductive t := high | medium | low | trueFraud | suspected | illegal | falsePositive.

Definition eqb (a b : t) : bool :=
  match a, b with
  | high, high | medium, medium | low, low | trueFraud, trueFraud
  | suspected, suspected | illegal, illegal | falsePositive, falsePositive => true
  | _, _ => false
  end.
End SortKey.

Module SortDirection.
Inductive t := asc | desc.
End SortDirection.

Module SortConfig.
Record t := mk { key : option SortKey.t; direction : SortDirection.t }.
End SortConfig.

Module EnterpriseStat.
Record t := mk {
  id : string;
  name : string;
  total : Z;
  high : Z;
  medium : Z;
  low : Z;
  trueFraud : Z;
  suspected : Z;
  illegal : Z;
  falsePositive : Z
}.

(** [row[key]] for a sort key. *)
Definition field (k : SortKey.t) (row : t) : Z :=
  match k with
  | SortKey.high => high row
  | SortKey.medium => medium row
  | SortKey.low => low row
  | SortKey.trueFraud => trueFraud row
  | SortKey.suspected => suspected row
  | SortKey.illegal => illegal row
  | SortKey.falsePositive => falsePositive row
  end.
End EnterpriseStat.

(** The counter updates on [stats] for one record. *)
Definition addToEnterprise (record : RiskRecord.t) (stats : EnterpriseStat.t)
  : EnterpriseStat.t :=
  let count := orOne (RiskRecord.count record) in
  let level := RiskRecord.riskLevel record in
  let result := RiskRecord.reviewResult record in
  let reviewed :=
    match RiskRecord.reviewStatus record with
    | ReviewStatus.REVIEWED => true
    | ReviewStatus.PENDING => false
    end in
  {| EnterpriseStat.id := EnterpriseStat.id stats;
     EnterpriseStat.name := EnterpriseStat.name stats;
     EnterpriseStat.total := EnterpriseStat.total stats + count;
     EnterpriseStat.high :=
       match level with
       | RiskLevel.HIGH => EnterpriseStat.high stats + count
       | _ => EnterpriseStat.high stats
       end;
     EnterpriseStat.medium :=
       match level with
       | RiskLevel.MEDIUM => EnterpriseStat.medium stats + count
       | _ => EnterpriseStat.medium stats
       end;
     EnterpriseStat.low :=
       match level with
       | RiskLevel.LOW => EnterpriseStat.low stats + count
       | _ => EnterpriseStat.low stats
       end;
     EnterpriseStat.trueFraud :=
       match reviewed, result with
       | true, ReviewResult.TRUE_FRAUD => EnterpriseStat.trueFraud stats + count
       | _, _ => EnterpriseStat.trueFraud stats
       end;
     EnterpriseStat.suspected :=
       match reviewed, result with
       | true, ReviewResult.SUSPECTED_FRAUD => EnterpriseStat.suspected stats + count
       | _, _ => EnterpriseStat.suspected stats
       end;
     EnterpriseStat.illegal :=
       match reviewed, result with
       | true, ReviewResult.ILLEGAL_BUSINESS => EnterpriseStat.illegal stats + count
       | _, _ => EnterpriseStat.illegal stats
       end;
     EnterpriseStat.falsePositive :=
       match reviewed, result with
       | true, ReviewResult.FALSE_POSITIVE => EnterpriseStat.falsePositive stats + count
       | _, _ => EnterpriseStat.falsePositive stats
       end |}.

(** The body of [data.forEach] in [rawStats]. *)
Definition enterpriseStep (m : list (string * EnterpriseStat.t)) (record : RiskRecord.t)
  : list (string * EnterpriseStat.t) :=
  let k := RiskRecord.enterpriseId record in
  let m1 :=
    if map_has String.eqb m k then m
    else map_set String.eqb m k
           (EnterpriseStat.mk k (RiskRecord.enterpriseName record) 0 0 0 0 0 0 0 0) in
  match map_get String.eqb m1 k with
  | Some stats => map_set String.eqb m1 k (addToEnterprise record stats)
  | None => m1
  end.

Definition rawStats (data : list RiskRecord.t) : list EnterpriseStat.t :=
  map_values (fold_left enterpriseStep data []).

(** The callback of [result.filter] for the lower-cased term. *)
Definition matchesTerm (lowerTerm : string) (item : EnterpriseStat.t) : bool :=
  includes (toLowerCase (EnterpriseStat.name item)) lowerTerm
  || includes (EnterpriseStat.id item) lowerTerm.

(** The filter stage of [processedData]. *)
Definition filterRows (rows : list EnterpriseStat.t) (searchTerm : string)
  : list EnterpriseStat.t :=
  if truthy (trim searchTerm)
  then filter (matchesTerm (toLowerCase searchTerm)) rows
  else rows.

(** The comparator handed to [result.sort]. *)
Definition compareRows (k : SortKey.t) (d : SortDirection.t) (a b : EnterpriseStat.t) : Z :=
  let valA := EnterpriseStat.field k a in
  let valB := EnterpriseStat.field k b in
  match d with
  | SortDirection.asc => valA - valB
  | SortDirection.desc => valB - valA
  end.

(** [rows] is the array that [rawStats] holds when the memo runs.  With a
    blank term [result] is that very array and [sort] reorders it in place;
    the value returned is the same in both cases. *)
Definition processedData (rows : list EnterpriseStat.t) (searchTerm : string)
    (sortConfig : SortConfig.t) : list EnterpriseStat.t :=
  let result := filterRows rows searchTerm in
  match SortConfig.key sortConfig with
  | Some k => sortBy (compareRows k (SortConfig.direction sortConfig)) result
  | None => result
  end.

(** The updater that [handleSort key] passes to [setSortConfig]. *)
Definition handleSort (key : SortKey.t) (prev : SortConfig.t) : SortConfig.t :=
  let same :=
    match SortConfig.key prev with
    | Some k => SortKey.eqb k key
    | None => false
    end in
  if same
  then SortConfig.mk (Some key)
         match SortConfig.direction prev with
         | SortDirection.asc => SortDirection.desc
         | SortDirection.desc => SortDirection.asc
         end
  else SortConfig.mk (Some key) SortDirection.desc.

(** ** Dates and times (ECMAScript's abstract operations, fixed offset) *)

Definition msPerDay : Z := 86400000.

(** [Day(LocalTime(t))]: the number of the local calendar day of [t]. *)
Definition localDay (tz t : Z) : Z := (t + tz) / msPerDay.

(** The UTC time value of a local time. *)
Definition fromLocal (tz local : Z) : Z := local - tz.

Definition DayFromYear (y : Z) : Z :=
  365 * (y - 1970) + (y - 1969) / 4 - (y - 1901) / 100 + (y - 1601) / 400.

Definition InLeapYear (y : Z) : bool :=
  (y mod 4 =? 0) && (negb (y mod 100 =? 0) || (y mod 400 =? 0)).

(** Days of the year before the first of month [m] (0 = January). *)
Definition daysBeforeMonth (leap : bool) (m : Z) : Z :=
  nth (Z.to_nat m) [0; 31; 59; 90; 120; 151; 181; 212; 243; 273; 304; 334] 0
  + (if leap && (2 <=? m) then 1 else 0).

(** [MakeDay(year, month, date)], month counted from 0; [date] may lie
    outside the month, as after [setDate(getDate() - 7)]. *)
Definition MakeDay (year month date : Z) : Z :=
  let ym := year + month / 12 in
  let mn := month mod 12 in
  DayFromYear ym + daysBeforeMonth (InLeapYear ym) mn + date - 1.

(** [new Date(year, month, date)]: local midnight. *)
Definition newDateLocal (tz year month date : Z) : Z :=
  fromLocal tz (MakeDay year month date * msPerDay).

(** A calendar date as the date input writes it, [YYYY-MM-DD]. *)
Module DateString.
Record t := mk { year : Z; month : Z; day : Z }.
End DateString.

(** [new Date("YYYY-MM-DD")]: a date-only form is read as UTC midnight. *)
Definition newDateFromDateString (s : DateString.t) : Z :=
  MakeDay (DateString.year s) (DateString.month s - 1) (DateString.day s) * msPerDay.

(** [date.setHours(h, m, s, ms)]: the clock fields of the local time of
    [t] are replaced, its local day is kept. *)
Definition setHours (tz t h m s ms : Z) : Z :=
  fromLocal tz
    (localDay tz t * msPerDay + (h * 3600000 + m * 60000 + s * 1000 + ms)).

(** ** DailyReportTable (src/components/DailyReportTable.tsx) *)

Module DailyAggregatedData.
(** [date] is the key [toLocaleDateString('zh-CN')] writes as
    year/month/day; it names the local calendar day, which stands for it
    here. *)
Record t := mk {
  date : Z;
  timestamp : Z;
  total : Z;
  high : Z;
  medium : Z;
  low : Z
}.
End DailyAggregatedData.

Definition addToDay (record : RiskRecord.t) (stats : DailyAggregatedData.t)
  : DailyAggregatedData.t :=
  let count := orOne (RiskRecord.count record) in
  let level := RiskRecord.riskLevel record in
  {| DailyAggregatedData.date := DailyAggregatedData.date stats;
     DailyAggregatedData.timestamp := DailyAggregatedData.timestamp stats;
     DailyAggregatedData.total := DailyAggregatedData.total stats + count;
     DailyAggregatedData.high :=
       match level with
       | RiskLevel.HIGH => DailyAggregatedData.high stats + count
       | _ => DailyAggregatedData.high stats
       end;
     DailyAggregatedData.medium :=
       match level with
       | RiskLevel.MEDIUM => DailyAggregatedData.medium stats + count
       | _ => DailyAggregatedData.medium stats
       end;
     DailyAggregatedData.low :=
       match level with
       | RiskLevel.LOW => DailyAggregatedData.low stats + count
       | _ => DailyAggregatedData.low stats
       end |}.

(** The body of [data.forEach] in [dailyData]. *)
Definition dayStep (tz : Z) (m : list (Z * DailyAggregatedData.t)) (record : RiskRecord.t)
  : list (Z * DailyAggregatedData.t) :=
  let dateObj := RiskRecord.callTime record in
  let dateKey := localDay tz dateObj in
  let m1 :=
    if map_has Z.eqb m dateKey then m
    else map_set Z.eqb m dateKey
           (DailyAggregatedData.mk dateKey
              (fromLocal tz (localDay tz dateObj * msPerDay)) 0 0 0 0) in
  match map_get Z.eqb m1 dateKey with
  | Some stats => map_set Z.eqb m1 dateKey (addToDay record stats)
  | None => m1
  end.

Definition dailyData (tz : Z) (data : list RiskRecord.t) : list DailyAggregatedData.t :=
  sortBy (fun a b => DailyAggregatedData.timestamp b - DailyAggregatedData.timestamp a)
    (map_values (fold_left (dayStep tz) data [])).

(** ** The time-window filter of the App component *)

Module TimeFilter.
Inductive t := today | yesterday | days7 | days30 | year | custom.
End TimeFilter.

(** What [getFullYear], [getMonth] and [getDate] return for [now]. *)
Module Now.
Record t := mk { fullYear : Z; month : Z; date : Z }.
End Now.

Module DateRange.
Record t := mk { start : DateString.t; end_ : DateString.t }.
End DateRange.

(** The callback of [rawData.filter]. *)
Definition inWindow (tz : Z) (now : Now.t) (timeFilter : TimeFilter.t)
    (customDateRange : DateRange.t) (d : RiskRecord.t) : bool :=
  let y := Now.fullYear now in
  let m := Now.month now in
  let dt := Now.date now in
  let startOfToday := newDateLocal tz y m dt in
  let callDate := RiskRecord.callTime d in
  match timeFilter with
  | TimeFilter.today => startOfToday <=? callDate
  | TimeFilter.yesterday =>
      let startOfYesterday := newDateLocal tz y m (dt - 1) in
      (startOfYesterday <=? callDate) && (callDate <? startOfToday)
  | TimeFilter.days7 => newDateLocal tz y m (dt - 7) <=? callDate
  | TimeFilter.days30 => newDateLocal tz y m (dt - 30) <=? callDate
  | TimeFilter.year => newDateLocal tz (y - 1) m dt <=? callDate
  | TimeFilter.custom =>
      let start := newDateFromDateString (DateRange.start customDateRange) in
      let end_ :=
        setHours tz (newDateFromDateString (DateRange.end_ customDateRange))
          23 59 59 999 in
      (start <=? callDate) && (callDate <=? end_)
  end.

Definition filteredData (tz : Z) (now : Now.t) (rawData : list RiskRecord.t)
    (timeFilter : TimeFilter.t) (customDateRange : DateRange.t) : list RiskRecord.t :=
  filter (inWindow tz now timeFilter customDateRange) rawData.

(** The start of a calendar day in local time, and the local calendar day
    of an instant, for a date written [YYYY-MM-DD]. *)
Definition localMidnight (tz : Z) (s : DateString.t) : Z :=
  newDateLocal tz (DateString.year s) (DateString.month s - 1) (DateString.day s).

Definition onLocalDate (tz : Z) (s : DateString.t) (t : Z) : bool :=
  localDay tz t =? MakeDay (DateString.year s) (DateString.month s - 1) (DateString.day s).

(** ** Vocabulary of the properties *)

(** A record's weight as the data model has it: its [count], 1 when unset. *)
Definition weight (d : RiskRecord.t) : Z :=
  match RiskRecord.count d with
  | Some n => n
  | None => 1
  end.

Definition positiveWeight (d : RiskRecord.t) : Prop := 0 < weight d.

Definition nonNegativeWeight (d : RiskRecord.t) : Prop := 0 <= weight d.

(** The tiers that the aggregation has a bucket for. *)
Definition knownTier (d : RiskRecord.t) : Prop :=
  In (RiskRecord.riskLevel d) [RiskLevel.HIGH; RiskLevel.MEDIUM; RiskLevel.LOW].

Definition sumZ (l : list Z) : Z := fold_right Z.add 0 l.

Definition isLevel (lv : RiskLevel.t) (d : RiskRecord.t) : bool :=
  match lv, RiskRecord.riskLevel d with
  | RiskLevel.HIGH, RiskLevel.HIGH | RiskLevel.MEDIUM, RiskLevel.MEDIUM
  | RiskLevel.LOW, RiskLevel.LOW | RiskLevel.NORMAL, RiskLevel.NORMAL => true
  | _, _ => false
  end.

Definition isReviewed (d : RiskRecord.t) : bool :=
  match RiskRecord.reviewStatus d with
  | ReviewStatus.REVIEWED => true
  | ReviewStatus.PENDING => false
  end.

Definition hasResult (r : ReviewResult.t) (d : RiskRecord.t) : bool :=
  match r, RiskRecord.reviewResult d with
  | ReviewResult.TRUE_FRAUD, ReviewResult.TRUE_FRAUD
  | ReviewResult.SUSPECTED_FRAUD, ReviewResult.SUSPECTED_FRAUD
  | ReviewResult.ILLEGAL_BUSINESS, ReviewResult.ILLEGAL_BUSINESS
  | ReviewResult.FALSE_POSITIVE, ReviewResult.FALSE_POSITIVE
  | ReviewResult.PENDING, ReviewResult.PENDING => true
  | _, _ => false
  end.

(** The events that the records satisfying [p] stand for, each record
    counted with the multiplicity the aggregation reads from it. *)
Definition weightSum (p : RiskRecord.t -> bool) (l : list RiskRecord.t) : Z :=
  sumZ (map (fun d => orOne (RiskRecord.count d)) (filter p l)).

(** *** Sample data *)

Definition sampleRecord (ent name : string) (t : Z) (lv : RiskLevel.t)
    (st : ReviewStatus.t) (res : ReviewResult.t) (c : option Z) : RiskRecord.t :=
  RiskRecord.mk "REC" ent name "138****1000" t 60 lv "x" [] st res None c.

(** The three records of the specification's aggregate scenario. *)
Definition scenario : list RiskRecord.t :=
  [ sampleRecord "7501556" "A" 0 RiskLevel.HIGH ReviewStatus.REVIEWED
      ReviewResult.TRUE_FRAUD (Some 1);
    sampleRecord "7501556" "A" 0 RiskLevel.HIGH ReviewStatus.PENDING
      ReviewResult.PENDING None;
    sampleRecord "7122191" "B" 0 RiskLevel.MEDIUM ReviewStatus.REVIEWED
      ReviewResult.FALSE_POSITIVE (Some 5) ].

(** A reviewed high-risk record whose [count] is negative. *)
Definition negativeBatch : list RiskRecord.t :=
  [ sampleRecord "7501556" "A" 0 RiskLevel.HIGH ReviewStatus.REVIEWED
      ReviewResult.TRUE_FRAUD (Some (-2)) ].

Definition opposite (d : SortDirection.t) : SortDirection.t :=
  match d with
  | SortDirection.asc => SortDirection.desc
  | SortDirection.desc => SortDirection.asc
  end.

(** [t] occurs in [s] when case is ignored. *)
Definition includesIgnoringCase (s t : string) : bool :=
  includes (toLowerCase s) (toLowerCase t).

(** The search rule with both fields compared case-insensitively. *)
Definition matchesIgnoringCase (searchTerm : string) (item : EnterpriseStat.t) : bool :=
  includesIgnoringCase (EnterpriseStat.name item) searchTerm
  || includesIgnoringCase (EnterpriseStat.id item) searchTerm.

(** A term that [trim] empties: every code unit is white space. *)
Definition blank (s : string) : bool := forallb isWhiteSpace (list_ascii_of_string s).

Definition sampleRow (id name : string) (high : Z) : EnterpriseStat.t :=
  EnterpriseStat.mk id name high high 0 0 0 0 0 0.

(** The identity and display part of a row. *)
Definition rowLabel (row : EnterpriseStat.t) : string * string :=
  (EnterpriseStat.id row, EnterpriseStat.name row).

(** The first record of [data] that belongs to enterprise [k]. *)
Definition firstOf (k : string) (data : list RiskRecord.t) : option RiskRecord.t :=
  find (fun r => String.eqb (RiskRecord.enterpriseId r) k) data.

(** The custom range 2024-01-10 .. 2024-01-10, and two fixed offsets. *)
Definition jan10 : DateString.t := DateString.mk 2024 1 10.

Definition jan10Range : DateRange.t := DateRange.mk jan10 jan10.

Definition utcPlus8 : Z := 8 * 3600000.

Definition utcMinus5 : Z := - (5 * 3600000).

(** A record whose call time is the given local wall-clock time of the
    given day, in the zone [tz]. *)
Definition recordAtLocal (tz : Z) (s : DateString.t) (h m sec : Z) : RiskRecord.t :=
  sampleRecord "7501556" "A"
    (fromLocal tz
       (MakeDay (DateString.year s) (DateString.month s - 1) (DateString.day s) * msPerDay
        + (h * 3600000 + m * 60000 + sec * 1000)))
    RiskLevel.HIGH ReviewStatus.PENDING ReviewResult.PENDING (Some 1).

(** The invariant of the loop of [rawStats] over the records seen so far:
    every entry sits under its row's id, carries the name of the first
    record of that enterprise, and every enterprise seen has an entry. *)
Definition enterpriseInv (data : list RiskRecord.t) (m : list (string * EnterpriseStat.t)) : Prop :=
  (forall k row, In (k, row) m ->
     EnterpriseStat.id row = k
     /\ exists r, firstOf k data = Some r
                  /\ EnterpriseStat.name row = RiskRecord.enterpriseName r)
  /\ (forall r, In r data -> map_has String.eqb m (RiskRecord.enterpriseId r) = true).

(** ** The get-or-create pattern of the rollups

    [if (!map.has(k)) map.set(k, fresh); const v = map.get(k)!;] followed
    by field updates on [v]. *)

Section GroupBy.
Context {R K V : Type}.
Variable keq : K -> K -> bool.
Variable keyOf : R -> K.
Variable fresh : R -> V.
Variable add : R -> V -> V.

Definition groupStep (m : list (K * V)) (r : R) : list (K * V) :=
  let k := keyOf r in
  let m1 := if map_has keq m k then m else map_set keq m k (fresh r) in
  match map_get keq m1 k with
  | Some v => map_set keq m1 k (add r v)
  | None => m1
  end.
End GroupBy.

(** The local calendar day of a record, the key of the per-day rollups. *)
Definition dayOf (tz : Z) (d : RiskRecord.t) : Z := localDay tz (RiskRecord.callTime d).

(** ** The drill-down of DailyReportTable *)

Module DrillEntry.
Record t := mk { id : string; name : string; count : Z }.
End DrillEntry.

(** The number type [F] of [percentage] is left open: the field holds a
    binary64 quotient, and floating-point arithmetic is outside the model. *)
Module DrillItem.
Record t (F : Type) := mk { id : string; name : string; count : Z; percentage : F }.
Arguments mk {F}.
Arguments id {F}.
Arguments name {F}.
Arguments count {F}.
Arguments percentage {F}.
End DrillItem.

Module DrillDown.
Record t (F : Type) := mk { total : Z; list : list (DrillItem.t F) }.
Arguments mk {F}.
Arguments total {F}.
Arguments list {F}.
End DrillDown.

(** The callback of [data.filter] for the selected day. *)
Definition isDrillTarget (tz selectedDate : Z) (d : RiskRecord.t) : bool :=
  (dayOf tz d =? selectedDate)
  && (isLevel RiskLevel.HIGH d || isLevel RiskLevel.MEDIUM d).

(** The entry that the drill-down creates for a new enterprise, and the
    update [enterpriseMap.get(r.enterpriseId)!.count += count]. *)
Definition freshDrillEntry (r : RiskRecord.t) : DrillEntry.t :=
  DrillEntry.mk (RiskRecord.enterpriseId r) (RiskRecord.enterpriseName r) 0.

Definition addToDrillEntry (r : RiskRecord.t) (e : DrillEntry.t) : DrillEntry.t :=
  DrillEntry.mk (DrillEntry.id e) (DrillEntry.name e)
    (DrillEntry.count e + orOne (RiskRecord.count r)).

(** The body of [targetRecords.forEach]: the running total and the map. *)
Definition drillStep (st : Z * list (string * DrillEntry.t)) (r : RiskRecord.t)
  : Z * list (string * DrillEntry.t) :=
  let count := orOne (RiskRecord.count r) in
  (fst st + count,
   groupStep String.eqb RiskRecord.enterpriseId freshDrillEntry addToDrillEntry
     (snd st) r).

Section DrillDownData.
Context {F : Type}.

(** [percent a b] stands for the binary64 value of [(a / b) * 100] and
    [zero] for the number 0. *)
Variable percent : Z -> Z -> F.
Variable zero : F.

(** An entry with its share of the day's total:
    [totalMidHighForDay > 0 ? (item.count / totalMidHighForDay) * 100 : 0]. *)
Definition withPercentage (totalMidHighForDay : Z) (item : DrillEntry.t) : DrillItem.t F :=
  DrillItem.mk (DrillEntry.id item) (DrillEntry.name item) (DrillEntry.count item)
    (if 0 <? totalMidHighForDay
     then percent (DrillEntry.count item) totalMidHighForDay
     else zero).

(** [selectedDate] is [None] when no day is selected. *)
Definition drillDownData (tz : Z) (selectedDate : option Z) (data : list RiskRecord.t)
  : option (DrillDown.t F) :=
  match selectedDate with
  | None => None
  | Some day =>
      let targetRecords := filter (isDrillTarget tz day) data in
      let st := fold_left drillStep targetRecords (0, []) in
      let totalMidHighForDay := fst st in
      let list :=
        sortBy (fun a b => DrillItem.count b - DrillItem.count a)
          (map (withPercentage totalMidHighForDay) (map_values (snd st))) in
      Some (DrillDown.mk totalMidHighForDay list)
  end.
End DrillDownData.

(** ** DailyReviewReportTable *)

Module DailyReviewData.
Record t := mk {
  date : Z;
  timestamp : Z;
  midHighDetectionCount : Z;
  reviewedTotal : Z;
  trueFraud : Z;
  suspected : Z;
  illegal : Z;
  falsePositive : Z
}.
End DailyReviewData.

Module DailyReviewReportTable.

Definition freshDay (tz : Z) (record : RiskRecord.t) : DailyReviewData.t :=
  let dateObj := RiskRecord.callTime record in
  DailyReviewData.mk (localDay tz dateObj)
    (fromLocal tz (localDay tz dateObj * msPerDay)) 0 0 0 0 0 0.

Definition addToDay (record : RiskRecord.t) (stats : DailyReviewData.t)
  : DailyReviewData.t :=
  let count := orOne (RiskRecord.count record) in
  let level := RiskRecord.riskLevel record in
  let result := RiskRecord.reviewResult record in
  let reviewed :=
    match RiskRecord.reviewStatus record with
    | ReviewStatus.REVIEWED => true
    | ReviewStatus.PENDING => false
    end in
  {| DailyReviewData.date := DailyReviewData.date stats;
     DailyReviewData.timestamp := DailyReviewData.timestamp stats;
     DailyReviewData.midHighDetectionCount :=
       match level with
       | RiskLevel.HIGH | RiskLevel.MEDIUM =>
           DailyReviewData.midHighDetectionCount stats + count
       | _ => DailyReviewData.midHighDetectionCount stats
       end;
     DailyReviewData.reviewedTotal :=
       if reviewed then DailyReviewData.reviewedTotal stats + count
       else DailyReviewData.reviewedTotal stats;
     DailyReviewData.trueFraud :=
       match reviewed, result with
       | true, ReviewResult.TRUE_FRAUD => DailyReviewData.trueFraud stats + count
       | _, _ => DailyReviewData.trueFraud stats
       end;
     DailyReviewData.suspected :=
       match reviewed, result with
       | true, ReviewResult.SUSPECTED_FRAUD => DailyReviewData.suspected stats + count
       | _, _ => DailyReviewData.suspected stats
       end;
     DailyReviewData.illegal :=
       match reviewed, result with
       | true, ReviewResult.ILLEGAL_BUSINESS => DailyReviewData.illegal stats + count
       | _, _ => DailyReviewData.illegal stats
       end;
     DailyReviewData.falsePositive :=
       match reviewed, result with
       | true, ReviewResult.FALSE_POSITIVE => DailyReviewData.falsePositive stats + count
       | _, _ => DailyReviewData.falsePositive stats
       end |}.

(** The rows before the final [filter] and [sort]. *)
Definition buckets (tz : Z) (data : list RiskRecord.t) : list DailyReviewData.t :=
  map_values (fold_left (groupStep Z.eqb (dayOf tz) (freshDay tz) addToDay) data []).

Definition keepRow (row : DailyReviewData.t) : bool :=
  (0 <? DailyReviewData.reviewedTotal row)
  || (0 <? DailyReviewData.midHighDetectionCount row).

Definition dailyData (tz : Z) (data : list RiskRecord.t) : list DailyReviewData.t :=
  sortBy (fun a b => DailyReviewData.timestamp b - DailyReviewData.timestamp a)
    (filter keepRow (buckets tz data)).

End DailyReviewReportTable.

(** ** Charts (src/components/Charts.tsx and its later version) *)

Module TrendEntry.
Record t := mk { date : Z; high : Z; medium : Z; low : Z }.
End TrendEntry.

Module RiskTrendChart.

(** [entry[d.riskLevel] += n] when the entry has that key: the entry has
    one key per tier HIGH, MEDIUM and LOW and none for NORMAL. *)
Definition addToEntry (d : RiskRecord.t) (entry : TrendEntry.t) : TrendEntry.t :=
  let n := orOne (RiskRecord.count d) in
  match RiskRecord.riskLevel d with
  | RiskLevel.HIGH =>
      TrendEntry.mk (TrendEntry.date entry) (TrendEntry.high entry + n)
        (TrendEntry.medium entry) (TrendEntry.low entry)
  | RiskLevel.MEDIUM =>
      TrendEntry.mk (TrendEntry.date entry) (TrendEntry.high entry)
        (TrendEntry.medium entry + n) (TrendEntry.low entry)
  | RiskLevel.LOW =>
      TrendEntry.mk (TrendEntry.date entry) (TrendEntry.high entry)
        (TrendEntry.medium entry) (TrendEntry.low entry + n)
  | RiskLevel.NORMAL => entry
  end.

Definition dailyStats (tz : Z) (data : list RiskRecord.t) : list TrendEntry.t :=
  rev (map_values
         (fold_left
            (groupStep Z.eqb (dayOf tz) (fun d => TrendEntry.mk (dayOf tz d) 0 0 0)
               addToEntry)
            data [])).

End RiskTrendChart.

Module ReviewOutcomeChart.

(** The [counts] object: one key per result other than PENDING. *)
Record counts := mkCounts {
  trueFraud : Z;
  suspectedFraud : Z;
  illegalBusiness : Z;
  falsePositive : Z
}.

Definition countRecord (c : counts) (d : RiskRecord.t) : counts :=
  let n := orOne (RiskRecord.count d) in
  match RiskRecord.reviewResult d with
  | ReviewResult.TRUE_FRAUD =>
      mkCounts (trueFraud c + n) (suspectedFraud c) (illegalBusiness c) (falsePositive c)
  | ReviewResult.SUSPECTED_FRAUD =>
      mkCounts (trueFraud c) (suspectedFraud c + n) (illegalBusiness c) (falsePositive c)
  | ReviewResult.ILLEGAL_BUSINESS =>
      mkCounts (trueFraud c) (suspectedFraud c) (illegalBusiness c + n) (falsePositive c)
  | ReviewResult.FALSE_POSITIVE =>
      mkCounts (trueFraud c) (suspectedFraud c) (illegalBusiness c) (falsePositive c + n)
  | ReviewResult.PENDING => c
  end.

(** The bars, each named by the result it shows. *)
Definition stats (data : list RiskRecord.t) : list (ReviewResult.t * Z) :=
  let c := fold_left countRecord (filter isReviewed data) (mkCounts 0 0 0 0) in
  [ (ReviewResult.TRUE_FRAUD, trueFraud c);
    (ReviewResult.SUSPECTED_FRAUD, suspectedFraud c);
    (ReviewResult.ILLEGAL_BUSINESS, illegalBusiness c);
    (ReviewResult.FALSE_POSITIVE, falsePositive c) ].

End ReviewOutcomeChart.

Module RiskDistributionPie.

(** The loop over [data]: the three tier sums [h], [m], [l]. *)
Definition sumTier (hml : Z * Z * Z) (d : RiskRecord.t) : Z * Z * Z :=
  let '(h, m, l) := hml in
  let n := orOne (RiskRecord.count d) in
  (match RiskRecord.riskLevel d with RiskLevel.HIGH => h + n | _ => h end,
   match RiskRecord.riskLevel d with RiskLevel.MEDIUM => m + n | _ => m end,
   match RiskRecord.riskLevel d with RiskLevel.LOW => l + n | _ => l end).

(** src/components/Charts.tsx: three slices, each named by its tier. *)
Definition slices (data : list RiskRecord.t) : list (RiskLevel.t * Z) :=
  let '(h, m, l) := fold_left sumTier data (0, 0, 0) in
  [ (RiskLevel.HIGH, h); (RiskLevel.MEDIUM, m); (RiskLevel.LOW, l) ].

(** The later version: totals, the share of LOW, and the slices of HIGH
    and MEDIUM that are positive. *)
Record t := mk {
  total : Z;
  h : Z;
  m : Z;
  l : Z;
  safetyRate : Q;
  pieData : list (RiskLevel.t * Z);
  abnormalTotal : Z
}.

Definition stats (data : list RiskRecord.t) : t :=
  let '(h, m, l) := fold_left sumTier data (0, 0, 0) in
  let total := h + m + l in
  let abnormalTotal := h + m in
  let safetyRate := percentOf l total in
  let pieData :=
    filter (fun item => 0 <? snd item) [ (RiskLevel.HIGH, h); (RiskLevel.MEDIUM, m) ] in
  mk total h m l safetyRate pieData abnormalTotal.

End RiskDistributionPie.

(** ** The filter bar of the App component *)

Module AppState.
Record t := mk {
  timeFilter : TimeFilter.t;
  showCustomPicker : bool;
  customDateRange : DateRange.t
}.
End AppState.

Definition isCustom (f : TimeFilter.t) : bool :=
  match f with
  | TimeFilter.custom => true
  | _ => false
  end.

Inductive DateField := startField | endField.

Definition handleCustomDateChange (type : DateField) (value : DateString.t)
    (st : AppState.t) : AppState.t :=
  let prev := AppState.customDateRange st in
  AppState.mk TimeFilter.custom (AppState.showCustomPicker st)
    match type with
    | startField => DateRange.mk value (DateRange.end_ prev)
    | endField => DateRange.mk (DateRange.start prev) value
    end.

Definition toggleCustomPicker (st : AppState.t) : AppState.t :=
  let showCustomPicker := AppState.showCustomPicker st in
  AppState.mk
    (if negb showCustomPicker && negb (isCustom (AppState.timeFilter st))
     then TimeFilter.custom else AppState.timeFilter st)
    (negb showCustomPicker)
    (AppState.customDateRange st).

(** The [onClick] of a filter button. *)
Definition clickFilterButton (id : TimeFilter.t) (st : AppState.t) : AppState.t :=
  AppState.mk id
    (if negb (isCustom id) then false else AppState.showCustomPicker st)
    (AppState.customDateRange st).

(** The [onClick] of the popover's close and confirm buttons. *)
Definition closeCustomPicker (st : AppState.t) : AppState.t :=
  AppState.mk (AppState.timeFilter st) false (AppState.customDateRange st).

Inductive FilterEvent :=
| ClickFilter (id : TimeFilter.t)
| TogglePicker
| ClosePicker
| ChangeDate (type : DateField) (value : DateString.t).

Definition dispatch (st : AppState.t) (e : FilterEvent) : AppState.t :=
  match e with
  | ClickFilter id => clickFilterButton id st
  | TogglePicker => toggleCustomPicker st
  | ClosePicker => closeCustomPicker st
  | ChangeDate type value => handleCustomDateChange type value st
  end.

(** The state the component starts in: yesterday, popover closed. *)
Definition initialState (range : DateRange.t) : AppState.t :=
  AppState.mk TimeFilter.yesterday false range.

(** ** Vocabulary of the rollup properties *)

(** The measure [mu] of the value filed under [k], 0 when the key is absent. *)
Definition valueAt {K V : Type} (keq : K -> K -> bool) (mu : V -> Z)
    (m : list (K * V)) (k : K) : Z :=
  match map_get keq m k with
  | Some v => mu v
  | None => 0
  end.

(** A counter [mu] of a rollup value that starts at 0 and grows by the
    weight of the records that [p] selects. *)
Definition counts {V : Type} (fresh : RiskRecord.t -> V) (add : RiskRecord.t -> V -> V)
    (mu : V -> Z) (p : RiskRecord.t -> bool) : Prop :=
  (forall r, mu (fresh r) = 0)
  /\ (forall r v, mu (add r v) = mu v + (if p r then orOne (RiskRecord.count r) else 0)).

(** The row that [rawStats] creates for a new enterprise. *)
Definition freshEnterprise (r : RiskRecord.t) : EnterpriseStat.t :=
  EnterpriseStat.mk (RiskRecord.enterpriseId r) (RiskRecord.enterpriseName r)
    0 0 0 0 0 0 0 0.

(** The row that [dailyData] creates for a new day. *)
Definition freshDay (tz : Z) (r : RiskRecord.t) : DailyAggregatedData.t :=
  DailyAggregatedData.mk (dayOf tz r) (fromLocal tz (dayOf tz r * msPerDay)) 0 0 0 0.

(** The records of [data] that fall on the local day [day]. *)
Definition recordsOfDay (tz day : Z) (data : list RiskRecord.t) : list RiskRecord.t :=
  filter (fun r => dayOf tz r =? day) data.

(** The days of a list in the order in which each is first met: every day
    is kept where it first occurs and dropped where it recurs. *)
Fixpoint firstAppearance (days : list Z) : list Z :=
  match days with
  | [] => []
  | day :: rest => day :: filter (fun d => negb (d =? day)) (firstAppearance rest)
  end.

(** Newest first: the order in which the generator returns the records. *)
Definition newestFirst (data : list RiskRecord.t) : Prop :=
  StronglySorted (fun a b => RiskRecord.callTime b <= RiskRecord.callTime a) data.

(** A reviewed record carries a result other than PENDING. *)
Definition reviewedHasResult (d : RiskRecord.t) : Prop :=
  RiskRecord.reviewStatus d = ReviewStatus.REVIEWED ->
  RiskRecord.reviewResult d <> ReviewResult.PENDING.

(** Two rows stand in the order that a sort by [k] in direction [d] asks for. *)
Definition inOrder (k : SortKey.t) (d : SortDirection.t) (a b : EnterpriseStat.t) : Prop :=
  match d with
  | SortDirection.asc => EnterpriseStat.field k a <= EnterpriseStat.field k b
  | SortDirection.desc => EnterpriseStat.field k b <= EnterpriseStat.field k a
  end.

(** ** The export of EnterpriseTable

    The text that [handleExport] builds, as UTF-16 code units; the labels
    and the byte-order mark lie outside U+0000 .. U+00FF.  The text is then
    passed through [encodeURI] and handed to a download link, which is
    outside the model. *)

Module EnterpriseExport.

Definition codeUnits (s : string) : list N := map N_of_ascii (list_ascii_of_string s).

(** A counter in a template literal: its decimal digits, with a minus sign
    when negative. *)
Definition numberToString (n : Z) : list N :=
  codeUnits (NilEmpty.string_of_int (Z.to_int n)).

(** [parts.join(sep)]. *)
Fixpoint join (sep : list N) (parts : list (list N)) : list N :=
  match parts with
  | [] => []
  | [p] => p
  | p :: rest => p ++ sep ++ join sep rest
  end.

Definition comma : N := 44.


Definition headers : list (list N) :=
  [ [20225; 19994; 21517; 31216];
    [20225; 19994; 73; 68];
    [39640; 39118; 38505];
    [20013; 39118; 38505];
    [20302; 39118; 38505];
    [30495; 23454; 35784; 39575];
    [30097; 20284; 35784; 39575];
    [19994; 21153; 36829; 27861];
    [22330; 26223; 35823; 21028] ]%N.


(** The template literal of one row. *)
Definition csvRow (row : EnterpriseStat.t) : list N :=
  codeUnits (EnterpriseStat.name row) ++ [comma]
  ++ codeUnits (EnterpriseStat.id row) ++ [comma]
  ++ numberToString (EnterpriseStat.high row) ++ [comma]
  ++ numberToString (EnterpriseStat.medium row) ++ [comma]
  ++ numberToString (EnterpriseStat.low row) ++ [comma]
  ++ numberToString (EnterpriseStat.trueFraud row) ++ [comma]
  ++ numberToString (EnterpriseStat.suspected row) ++ [comma]
  ++ numberToString (EnterpriseStat.illegal row) ++ [comma]
  ++ numberToString (EnterpriseStat.falsePositive row).

(** The lines that are joined: the header line, then one line per row. *)
Definition csvLines (processedData : list EnterpriseStat.t) : list (list N) :=
  join [comma] headers :: map csvRow processedData.



(** How often the code unit [c] occurs. *)
Definition occurrences (c : N) (text : list N) : nat := count_occ N.eq_dec text c.


End EnterpriseExport.

(** * Properties of calculateStats *)

Lemma weightSum_nil p : weightSum p [] = 0.
Proof. reflexivity. Qed.

Lemma weightSum_cons p d l :
  weightSum p (d :: l) =
  (if p d then orOne (RiskRecord.count d) else 0) + weightSum p l.
Proof.
  unfold weightSum; simpl. destruct (p d); reflexivity.
Qed.

Lemma weightSum_app p l1 l2 :
  weightSum p (l1 ++ l2) = weightSum p l1 + weightSum p l2.
Proof.
  induction l1 as [|d l1 IH]; [reflexivity|].
  simpl app. rewrite !weightSum_cons, IH. lia.
Qed.

(** What the loop leaves in each local variable: the weight-sum of the
    records that the variable's branch selects. *)
Lemma tally_sums :
  forall l s,
    fold_left tallyRecord l s =
    {| Tally.total := Tally.total s + weightSum (fun _ => true) l;
       Tally.highRisk := Tally.highRisk s + weightSum (isLevel RiskLevel.HIGH) l;
       Tally.medRisk := Tally.medRisk s + weightSum (isLevel RiskLevel.MEDIUM) l;
       Tally.lowRisk := Tally.lowRisk s + weightSum (isLevel RiskLevel.LOW) l;
       Tally.highRiskReviewed :=
         Tally.highRiskReviewed s
         + weightSum (fun d => isReviewed d && isLevel RiskLevel.HIGH d) l;
       Tally.mediumRiskReviewed :=
         Tally.mediumRiskReviewed s
         + weightSum (fun d => isReviewed d && isLevel RiskLevel.MEDIUM d) l;
       Tally.reviewedTotal := Tally.reviewedTotal s + weightSum isReviewed l;
       Tally.trueFraud :=
         Tally.trueFraud s
         + weightSum (fun d => isReviewed d && hasResult ReviewResult.TRUE_FRAUD d) l;
       Tally.suspFraud :=
         Tally.suspFraud s
         + weightSum (fun d => isReviewed d && hasResult ReviewResult.SUSPECTED_FRAUD d) l;
       Tally.illegal :=
         Tally.illegal s
         + weightSum (fun d => isReviewed d && hasResult ReviewResult.ILLEGAL_BUSINESS d) l;
       Tally.falsePos :=
         Tally.falsePos s
         + weightSum (fun d => isReviewed d && hasResult ReviewResult.FALSE_POSITIVE d) l |}.
Proof.
  induction l as [|d l IH]; intros s.
  - destruct s; simpl; rewrite !weightSum_nil, !Z.add_0_r; reflexivity.
  - simpl fold_left. rewrite IH, !weightSum_cons.
    unfold tallyRecord, isReviewed, isLevel, hasResult.
    destruct (RiskRecord.reviewStatus d), (RiskRecord.riskLevel d),
      (RiskRecord.reviewResult d); simpl; f_equal; lia.
Qed.

Lemma orOne_weight d : weight d <> 0 -> orOne (RiskRecord.count d) = weight d.
Proof.
  unfold weight, orOne. destruct (RiskRecord.count d) as [[| |]|]; congruence.
Qed.

Lemma orOne_nonneg d : nonNegativeWeight d -> 0 <= orOne (RiskRecord.count d).
Proof.
  unfold nonNegativeWeight, weight, orOne.
  destruct (RiskRecord.count d) as [[| |]|]; lia.
Qed.

Lemma positive_nonNegative d : positiveWeight d -> nonNegativeWeight d.
Proof. unfold positiveWeight, nonNegativeWeight. lia. Qed.

Lemma weightSum_nonneg p l : Forall nonNegativeWeight l -> 0 <= weightSum p l.
Proof.
  induction 1 as [|d l Hd _ IH]; [rewrite weightSum_nil; lia|].
  rewrite weightSum_cons. pose proof (orOne_nonneg d Hd). destruct (p d); lia.
Qed.

(** A narrower selection never counts more, when no weight is negative. *)
Lemma weightSum_mono p q l :
  (forall d, p d = true -> q d = true) ->
  Forall nonNegativeWeight l -> weightSum p l <= weightSum q l.
Proof.
  intros Hpq. induction 1 as [|d l Hd _ IH]; [rewrite !weightSum_nil; lia|].
  rewrite !weightSum_cons. pose proof (orOne_nonneg d Hd).
  specialize (Hpq d). destruct (p d), (q d);
    first [lia | discriminate (Hpq eq_refl)].
Qed.

Lemma weightSum_all l :
  Forall positiveWeight l -> weightSum (fun _ => true) l = sumZ (map weight l).
Proof.
  induction 1 as [|d l Hd _ IH]; [reflexivity|].
  rewrite weightSum_cons, IH. simpl.
  rewrite orOne_weight; [reflexivity | unfold positiveWeight in Hd; lia].
Qed.

Lemma weightSum_tiers l :
  Forall knownTier l ->
  weightSum (isLevel RiskLevel.HIGH) l + weightSum (isLevel RiskLevel.MEDIUM) l
  + weightSum (isLevel RiskLevel.LOW) l = weightSum (fun _ => true) l.
Proof.
  induction 1 as [|d l Hd _ IH]; [reflexivity|].
  rewrite !weightSum_cons. revert IH.
  generalize (weightSum (isLevel RiskLevel.HIGH) l)
    (weightSum (isLevel RiskLevel.MEDIUM) l)
    (weightSum (isLevel RiskLevel.LOW) l) (weightSum (fun _ => true) l).
  intros a b c t IH. unfold knownTier in Hd. unfold isLevel.
  destruct (RiskRecord.riskLevel d); simpl in Hd |- *;
    first [lia | exfalso; intuition discriminate].
Qed.

Lemma calculateStats_counters data :
  let s := calculateStats data in
  DashboardStats.totalDetections s = weightSum (fun _ => true) data
  /\ DashboardStats.highRiskCount s = weightSum (isLevel RiskLevel.HIGH) data
  /\ DashboardStats.mediumRiskCount s = weightSum (isLevel RiskLevel.MEDIUM) data
  /\ DashboardStats.lowRiskCount s = weightSum (isLevel RiskLevel.LOW) data
  /\ DashboardStats.highRiskReviewedCount s =
     weightSum (fun d => isReviewed d && isLevel RiskLevel.HIGH d) data
  /\ DashboardStats.mediumRiskReviewedCount s =
     weightSum (fun d => isReviewed d && isLevel RiskLevel.MEDIUM d) data
  /\ DashboardStats.reviewedCount s = weightSum isReviewed data.
Proof.
  unfold calculateStats. rewrite tally_sums. simpl. repeat split; reflexivity.
Qed.

(** C1. Weight conservation: when every record's weight (its [count], 1 when
    unset) is a positive integer, [totalDetections] is the sum of the
    weights of the records. *)
Theorem calculateStats_weight_conservation :
  forall data,
    Forall positiveWeight data ->
    DashboardStats.totalDetections (calculateStats data) = sumZ (map weight data).
Proof.
  intros data Hpos.
  destruct (calculateStats_counters data) as [Ht _]. cbv zeta in Ht.
  rewrite Ht. apply weightSum_all, Hpos.
Qed.

Lemma calculateStats_weight_conservation_scenario :
  Forall positiveWeight scenario
  /\ DashboardStats.totalDetections (calculateStats scenario) = 7.
Proof.
  assert (H : Forall positiveWeight scenario)
    by (repeat constructor).
  split; [exact H|].
  exact (calculateStats_weight_conservation scenario H).
Defined.

Lemma calculateStats_outcomes data :
  let s := calculateStats data in
  DashboardStats.trueFraudCount s =
    weightSum (fun d => isReviewed d && hasResult ReviewResult.TRUE_FRAUD d) data
  /\ DashboardStats.suspectedFraudCount s =
    weightSum (fun d => isReviewed d && hasResult ReviewResult.SUSPECTED_FRAUD d) data
  /\ DashboardStats.illegalBusinessCount s =
    weightSum (fun d => isReviewed d && hasResult ReviewResult.ILLEGAL_BUSINESS d) data
  /\ DashboardStats.falsePositiveCount s =
    weightSum (fun d => isReviewed d && hasResult ReviewResult.FALSE_POSITIVE d) data.
Proof.
  unfold calculateStats. rewrite tally_sums. simpl. repeat split; reflexivity.
Qed.





(** Outside the data model: on one reviewed HIGH record with [count = -2]
    the denominator is -2, and the guard gives 0 where the quotient is 100. *)
Lemma reviewCompletionRate_negative_target :
  DashboardStats.highRiskCount (calculateStats negativeBatch)
  + DashboardStats.mediumRiskCount (calculateStats negativeBatch) = -2
  /\ ~ (DashboardStats.reviewCompletionRate (calculateStats negativeBatch) ==
        inject_Z (DashboardStats.highRiskReviewedCount (calculateStats negativeBatch)
                  + DashboardStats.mediumRiskReviewedCount (calculateStats negativeBatch))
        / inject_Z (DashboardStats.highRiskCount (calculateStats negativeBatch)
                    + DashboardStats.mediumRiskCount (calculateStats negativeBatch))
        * 100)%Q.
Proof.
  split; [reflexivity|]. vm_compute. discriminate.
Qed.


(** Outside the data model: on one reviewed TRUE_FRAUD record with
    [count = -2], [reviewedCount] is -2, and the guard gives 0 where the
    quotient is 100. *)
Lemma accuracyRate_negative_reviewed :
  DashboardStats.reviewedCount (calculateStats negativeBatch) = -2
  /\ ~ (DashboardStats.accuracyRate (calculateStats negativeBatch) ==
        inject_Z (DashboardStats.trueFraudCount (calculateStats negativeBatch)
                  + DashboardStats.suspectedFraudCount (calculateStats negativeBatch)
                  + DashboardStats.illegalBusinessCount (calculateStats negativeBatch))
        / inject_Z (DashboardStats.reviewedCount (calculateStats negativeBatch))
        * 100)%Q.
Proof.
  split; [reflexivity|]. vm_compute. discriminate.
Qed.





(** The aggregate scenario of the specification: 7 events, 2 HIGH and 5
    MEDIUM, 1 and 5 of them reviewed; completion 600/7, accuracy 100/6. *)
Example calculateStats_scenario :
  let s := calculateStats scenario in
  DashboardStats.totalDetections s = 7
  /\ DashboardStats.highRiskCount s = 2
  /\ DashboardStats.mediumRiskCount s = 5
  /\ DashboardStats.highRiskReviewedCount s = 1
  /\ DashboardStats.mediumRiskReviewedCount s = 5
  /\ (DashboardStats.reviewCompletionRate s == 600 # 7)%Q
  /\ (DashboardStats.accuracyRate s == 100 # 6)%Q.
Proof. repeat split. Qed.

(** C5. Tier partition: when every record's tier is HIGH, MEDIUM or LOW, the
    three tier counters add up to [totalDetections]. *)
Theorem calculateStats_tier_partition :
  forall data,
    Forall knownTier data ->
    DashboardStats.highRiskCount (calculateStats data)
    + DashboardStats.mediumRiskCount (calculateStats data)
    + DashboardStats.lowRiskCount (calculateStats data)
    = DashboardStats.totalDetections (calculateStats data).
Proof.
  intros data H.
  destruct (calculateStats_counters data) as (Ht & Hh & Hm & Hl & _).
  cbv zeta in *. rewrite Ht, Hh, Hm, Hl. apply weightSum_tiers, H.
Qed.

Lemma calculateStats_tier_partition_scenario :
  Forall knownTier scenario
  /\ DashboardStats.highRiskCount (calculateStats scenario)
     + DashboardStats.mediumRiskCount (calculateStats scenario)
     + DashboardStats.lowRiskCount (calculateStats scenario)
     = DashboardStats.totalDetections (calculateStats scenario).
Proof.
  assert (H : Forall knownTier scenario)
    by (repeat constructor; simpl; auto).
  split; [exact H|].
  exact (calculateStats_tier_partition scenario H).
Defined.

(** A record of the reserved NORMAL tier is counted in the total and in no
    tier counter. *)
Example calculateStats_normal_tier_leaks :
  let s :=
    calculateStats
      [sampleRecord "7501556" "A" 0 RiskLevel.NORMAL ReviewStatus.PENDING
         ReviewResult.PENDING (Some 3)] in
  DashboardStats.totalDetections s = 3
  /\ DashboardStats.highRiskCount s + DashboardStats.mediumRiskCount s
     + DashboardStats.lowRiskCount s = 0.
Proof. split; reflexivity. Qed.

(** C6. Review subset: when every weight is a positive integer, the
    reviewed counters never exceed the counters they are part of. *)
Theorem calculateStats_review_subset :
  forall data,
    Forall positiveWeight data ->
    DashboardStats.reviewedCount (calculateStats data)
      <= DashboardStats.totalDetections (calculateStats data)
    /\ DashboardStats.highRiskReviewedCount (calculateStats data)
      <= DashboardStats.highRiskCount (calculateStats data)
    /\ DashboardStats.mediumRiskReviewedCount (calculateStats data)
      <= DashboardStats.mediumRiskCount (calculateStats data).
Proof.
  intros data Hpos.
  assert (H : Forall nonNegativeWeight data)
    by (eapply Forall_impl; [apply positive_nonNegative | exact Hpos]).
  destruct (calculateStats_counters data) as (Ht & Hh & Hm & _ & Hhr & Hmr & Hrev).
  cbv zeta in *. rewrite Ht, Hh, Hm, Hhr, Hmr, Hrev.
  repeat split; apply weightSum_mono; auto; intros d Hd;
    try reflexivity; apply andb_true_iff in Hd; apply Hd.
Qed.

Lemma calculateStats_review_subset_scenario :
  Forall positiveWeight scenario
  /\ DashboardStats.reviewedCount (calculateStats scenario) <= 7
  /\ DashboardStats.highRiskReviewedCount (calculateStats scenario) <= 2
  /\ DashboardStats.mediumRiskReviewedCount (calculateStats scenario) <= 5.
Proof.
  assert (H : Forall positiveWeight scenario)
    by (repeat constructor).
  split; [exact H|].
  exact (calculateStats_review_subset scenario H).
Defined.

(** * Properties of the enterprise table *)

(** C8. The sort-selection state machine: a request for the active key
    flips the direction, a request for another key selects it with [desc];
    of three consecutive requests for one key the second has the opposite
    direction of the first and the third has the direction of the first. *)
Theorem handleSort_transitions :
  forall (prev : SortConfig.t) (K : SortKey.t),
    (SortConfig.key prev = Some K ->
       handleSort K prev = SortConfig.mk (Some K) (opposite (SortConfig.direction prev)))
    /\ (SortConfig.key prev <> Some K ->
       handleSort K prev = SortConfig.mk (Some K) SortDirection.desc)
    /\ SortConfig.key (handleSort K prev) = Some K
    /\ SortConfig.direction (handleSort K (handleSort K prev))
       = opposite (SortConfig.direction (handleSort K prev))
    /\ opposite (SortConfig.direction (handleSort K prev))
       <> SortConfig.direction (handleSort K prev)
    /\ SortConfig.direction (handleSort K (handleSort K (handleSort K prev)))
       = SortConfig.direction (handleSort K prev).
Proof.
  intros [[k|] d] K; destruct d, K; try destruct k; simpl;
    repeat split; intros; try reflexivity; try congruence; discriminate.
Qed.

Example handleSort_from_initial :
  let initial := SortConfig.mk (Some SortKey.high) SortDirection.desc in
  handleSort SortKey.high initial = SortConfig.mk (Some SortKey.high) SortDirection.asc
  /\ handleSort SortKey.low initial = SortConfig.mk (Some SortKey.low) SortDirection.desc
  /\ handleSort SortKey.low (SortConfig.mk None SortDirection.asc)
     = SortConfig.mk (Some SortKey.low) SortDirection.desc.
Proof. repeat split. Qed.

(** ** Strings *)

Lemma startsWith_append s t :
  startsWith s t = true <-> exists post, s = (t ++ post)%string.
Proof.
  revert s. induction t as [|b t IH]; intros s; simpl.
  - split; [intros _; exists s; reflexivity | reflexivity].
  - destruct s as [|a s]; [split; [discriminate | intros [post H]; discriminate]|].
    rewrite andb_true_iff, Ascii.eqb_eq, IH. split.
    + intros [-> [post ->]]. exists post. reflexivity.
    + intros [post H]. injection H as -> H. split; [reflexivity | exists post; exact H].
Qed.

(** [includes] is the substring relation. *)
Lemma includes_substring s t :
  includes s t = true <-> exists pre post, s = (pre ++ t ++ post)%string.
Proof.
  induction s as [|c s IH]; simpl.
  - rewrite orb_false_r, startsWith_append. split.
    + intros [post H]. exists EmptyString, post. exact H.
    + intros [[|c pre] [post H]]; [exists post; exact H | discriminate].
  - rewrite orb_true_iff, startsWith_append, IH. split.
    + intros [[post H] | (pre & post & H)].
      * exists EmptyString, post. exact H.
      * exists (String c pre), post. simpl. rewrite H. reflexivity.
    + intros ([|c' pre] & post & H).
      * left. exists post. exact H.
      * right. injection H as _ H. exists pre, post. exact H.
Qed.

Lemma trimStart_blank s : trimStart s = EmptyString <-> blank s = true.
Proof.
  unfold blank. induction s as [|c s IH]; simpl; [tauto|].
  destruct (isWhiteSpace c); simpl; [exact IH | split; discriminate].
Qed.

Lemma trimEnd_head c s : isWhiteSpace c = false -> trimEnd (String c s) <> EmptyString.
Proof.
  intros H. simpl. rewrite H. destruct (trimEnd s); discriminate.
Qed.

(** [searchTerm.trim()] is falsy exactly for the empty and the
    white-space-only terms. *)
Lemma trim_falsy s : truthy (trim s) = false <-> blank s = true.
Proof.
  rewrite <- trimStart_blank. unfold trim. split.
  - intros H. destruct (trimStart s) as [|c s'] eqn:E; [reflexivity|].
    assert (Hc : isWhiteSpace c = false).
    { clear H. induction s as [|a s IH]; simpl in E; [discriminate|].
      destruct (isWhiteSpace a) eqn:Ha; [auto | congruence]. }
    pose proof (trimEnd_head c s' Hc).
    destruct (trimEnd (String c s')); [congruence | discriminate].
  - intros ->. reflexivity.
Qed.

(** ** Sorting keeps the rows *)

Lemma insertBy_In {A} (cmp : A -> A -> Z) x y l :
  In x (insertBy cmp y l) <-> x = y \/ In x l.
Proof.
  induction l as [|z l IH]; simpl; [intuition|].
  destruct (cmp y z <=? 0); simpl; [intuition|]. rewrite IH. intuition.
Qed.

Lemma sortBy_In {A} (cmp : A -> A -> Z) x l : In x (sortBy cmp l) <-> In x l.
Proof.
  induction l as [|y l IH]; simpl; [tauto|].
  rewrite insertBy_In, IH. intuition.
Qed.

Lemma sortBy_length {A} (cmp : A -> A -> Z) l : List.length (sortBy cmp l) = List.length l.
Proof.
  induction l as [|y l IH]; simpl; [reflexivity|]. rewrite <- IH.
  generalize (sortBy cmp l). intros m. induction m as [|z m IHm]; simpl; [reflexivity|].
  destruct (cmp y z <=? 0); simpl; congruence.
Qed.

(** ** The search filter *)

(** What the filter stage does: a blank term keeps the rows as they are;
    any other term keeps the rows whose lower-cased name, or whose id as it
    is written, contains the lower-cased term. *)
Lemma filterRows_spec rows searchTerm :
  (blank searchTerm = true -> filterRows rows searchTerm = rows)
  /\ (blank searchTerm = false ->
      forall row,
        In row (filterRows rows searchTerm) <->
        In row rows
        /\ (includes (toLowerCase (EnterpriseStat.name row)) (toLowerCase searchTerm) = true
            \/ includes (EnterpriseStat.id row) (toLowerCase searchTerm) = true)).
Proof.
  unfold filterRows. split; intros H.
  - apply trim_falsy in H. rewrite H. reflexivity.
  - destruct (truthy (trim searchTerm)) eqn:E.
    + intros row. rewrite filter_In. unfold matchesTerm. rewrite orb_true_iff. tauto.
    + apply trim_falsy in E. congruence.
Qed.

Lemma processedData_In rows searchTerm sortConfig row :
  In row (processedData rows searchTerm sortConfig) <-> In row (filterRows rows searchTerm).
Proof.
  unfold processedData. destruct (SortConfig.key sortConfig); [apply sortBy_In | tauto].
Qed.

(** For ids that lower-casing leaves alone (digits, as in the sample
    enterprises) the rule is the case-insensitive one on both fields. *)
Lemma matchesTerm_lowercase_id searchTerm row :
  toLowerCase (EnterpriseStat.id row) = EnterpriseStat.id row ->
  matchesTerm (toLowerCase searchTerm) row = matchesIgnoringCase searchTerm row.
Proof.
  intros H. unfold matchesTerm, matchesIgnoringCase, includesIgnoringCase.
  rewrite H. reflexivity.
Qed.

Lemma filterRows_length rows searchTerm :
  (List.length (filterRows rows searchTerm) <= List.length rows)%nat.
Proof.
  unfold filterRows. destruct (truthy (trim searchTerm)); [apply filter_length_le | lia].
Qed.

(** C7 at the row with id AB1 and the term AB.  The term occurs in the id
    when case is ignored, so the rule of C7 keeps the row; the table drops
    it, because the term is lower-cased and the id is not.  The name path
    of the same filter lower-cases both sides. *)
Theorem filterRows_id_case_sensitive :
  let row := sampleRow "AB1" "Acme" 3 in
  blank "AB" = false
  /\ matchesIgnoringCase "AB" row = true
  /\ filterRows [row] "AB" = []
  /\ processedData [row] "AB" (SortConfig.mk (Some SortKey.high) SortDirection.desc) = []
  /\ filterRows [row] "ACME" = [row]
  /\ filterRows [row] "   " = [row].
Proof. repeat split. Qed.

(** * The map model *)

Section JsMapFacts.
Context {K V : Type}.
Variable keq : K -> K -> bool.
Hypothesis keq_eq : forall a b, keq a b = true <-> a = b.

Lemma map_has_get m k :
  map_has keq m k = true <-> exists v : V, map_get keq m k = Some v.
Proof.
  induction m as [|[k' v'] m IH]; simpl.
  - split; [discriminate | intros [v H]; discriminate].
  - destruct (keq k' k); simpl; [split; eauto | exact IH].
Qed.

Lemma map_get_In m k (v : V) : map_get keq m k = Some v -> In (k, v) m.
Proof.
  induction m as [|[k' v'] m IH]; simpl; [discriminate|].
  destruct (keq k' k) eqn:E.
  - apply keq_eq in E. intros H. injection H as ->. left. congruence.
  - auto.
Qed.

Lemma In_map_has m k (v : V) : In (k, v) m -> map_has keq m k = true.
Proof.
  induction m as [|[k' v'] m IH]; simpl; [tauto|].
  intros [H|H].
  - injection H as -> _. replace (keq k k) with true; [reflexivity|].
    symmetry. apply keq_eq. reflexivity.
  - rewrite (IH H). apply orb_true_r.
Qed.

Lemma map_set_In m k (v : V) k' v' :
  In (k', v') (map_set keq m k v) -> (k' = k /\ v' = v) \/ In (k', v') m.
Proof.
  induction m as [|[k0 v0] m IH]; simpl.
  - intros [H|[]]. injection H as <- <-. auto.
  - destruct (keq k0 k) eqn:E; simpl.
    + apply keq_eq in E. intros [H|H]; [injection H as <- <-; auto | auto].
    + intros [H|H]; [auto | destruct (IH H); auto].
Qed.

Lemma map_set_has m k (v : V) : map_has keq (map_set keq m k v) k = true.
Proof.
  assert (Hk : keq k k = true) by (apply keq_eq; reflexivity).
  induction m as [|[k0 v0] m IH]; simpl; [rewrite Hk; reflexivity|].
  destruct (keq k0 k) eqn:E; simpl; rewrite E; [reflexivity | exact IH].
Qed.

Lemma map_set_has_other m k (v : V) k' :
  map_has keq m k' = true -> map_has keq (map_set keq m k v) k' = true.
Proof.
  induction m as [|[k0 v0] m IH]; simpl; [discriminate|].
  destruct (keq k0 k) eqn:E; simpl; [tauto|].
  destruct (keq k0 k'); simpl; auto.
Qed.

(** A new key is appended; the entries before it stay. *)
Lemma map_set_new m k (v : V) :
  map_has keq m k = false -> map_set keq m k v = m ++ [(k, v)].
Proof.
  induction m as [|[k0 v0] m IH]; simpl; [reflexivity|].
  destruct (keq k0 k); simpl; [discriminate|]. intros H. rewrite IH; auto.
Qed.

(** A write under a present key changes that entry's value and nothing
    else: what a function [g] reads from the values is kept when the new
    value agrees with the old one on it. *)
Lemma map_set_keeps {W} (g : V -> W) m k (v v' : V) :
  map_get keq m k = Some v -> g v' = g v ->
  map g (map_values (map_set keq m k v')) = map g (map_values m).
Proof.
  unfold map_values.
  induction m as [|[k0 v0] m IH]; simpl; [discriminate|].
  destruct (keq k0 k); simpl.
  - intros H Hg. injection H as ->. rewrite Hg. reflexivity.
  - intros H Hg. rewrite IH; auto.
Qed.

Lemma map_get_new m k (v : V) :
  map_has keq m k = false -> map_get keq (m ++ [(k, v)]) k = Some v.
Proof.
  assert (Hk : keq k k = true) by (apply keq_eq; reflexivity).
  induction m as [|[k0 v0] m IH]; simpl; [rewrite Hk; reflexivity|].
  destruct (keq k0 k); simpl; [discriminate | exact IH].
Qed.
End JsMapFacts.

Lemma fold_left_replace {A B} (f : A -> B -> A) (x y : B) :
  (forall s, f s x = f s y) ->
  forall pre post init,
    fold_left f (pre ++ x :: post) init = fold_left f (pre ++ y :: post) init.
Proof.
  intros H pre post init. rewrite !fold_left_app. simpl. rewrite H. reflexivity.
Qed.

(** * The per-enterprise rollup *)

(** The two shapes of one step: a record of an enterprise that has a row
    updates that row; a record of a new enterprise appends a row. *)
Lemma enterpriseStep_present m record :
  map_has String.eqb m (RiskRecord.enterpriseId record) = true ->
  exists stats,
    map_get String.eqb m (RiskRecord.enterpriseId record) = Some stats
    /\ enterpriseStep m record =
       map_set String.eqb m (RiskRecord.enterpriseId record)
         (addToEnterprise record stats).
Proof.
  intros H. unfold enterpriseStep. rewrite H.
  destruct (proj1 (map_has_get String.eqb m _) H) as [stats Hs].
  exists stats. rewrite Hs. auto.
Qed.

Lemma enterpriseStep_absent m record :
  map_has String.eqb m (RiskRecord.enterpriseId record) = false ->
  enterpriseStep m record =
  m ++ [(RiskRecord.enterpriseId record,
         addToEnterprise record
           (EnterpriseStat.mk (RiskRecord.enterpriseId record)
              (RiskRecord.enterpriseName record) 0 0 0 0 0 0 0 0))].
Proof.
  intros H. unfold enterpriseStep. rewrite H.
  rewrite (map_set_new String.eqb m _ _ H).
  rewrite (map_get_new String.eqb String.eqb_eq m _ _ H).
  assert (Hh : map_has String.eqb m (RiskRecord.enterpriseId record) = false) by exact H.
  clear H. induction m as [|[k0 v0] m IH]; simpl in *.
  - rewrite String.eqb_refl. reflexivity.
  - destruct (String.eqb k0 (RiskRecord.enterpriseId record)); simpl in *;
      [discriminate | rewrite IH; auto].
Qed.

Lemma firstOf_app_old k data r r0 :
  firstOf k data = Some r0 -> firstOf k (data ++ [r]) = Some r0.
Proof.
  unfold firstOf. induction data as [|d data IH]; simpl; [discriminate|].
  destruct (String.eqb (RiskRecord.enterpriseId d) k); auto.
Qed.

Lemma firstOf_app_new data r :
  (forall d, In d data -> RiskRecord.enterpriseId d <> RiskRecord.enterpriseId r) ->
  firstOf (RiskRecord.enterpriseId r) (data ++ [r]) = Some r.
Proof.
  unfold firstOf. induction data as [|d data IH]; simpl; intros H.
  - rewrite String.eqb_refl. reflexivity.
  - destruct (String.eqb (RiskRecord.enterpriseId d) (RiskRecord.enterpriseId r)) eqn:E.
    + apply String.eqb_eq in E. exfalso. apply (H d); auto.
    + apply IH. intros d' Hd'. apply H. auto.
Qed.

Lemma enterpriseInv_step data m r :
  enterpriseInv data m -> enterpriseInv (data ++ [r]) (enterpriseStep m r).
Proof.
  intros [Hrows Hkeys].
  destruct (map_has String.eqb m (RiskRecord.enterpriseId r)) eqn:Hhas.
  - destruct (enterpriseStep_present m r Hhas) as (stats & Hget & ->).
    apply (map_get_In String.eqb String.eqb_eq) in Hget.
    split.
    + intros k row Hin.
      apply (map_set_In String.eqb String.eqb_eq) in Hin.
      destruct Hin as [[-> ->] | Hin].
      * destruct (Hrows _ _ Hget) as (Hid & r0 & Hf & Hn).
        split; [exact Hid|]. exists r0. split; [|exact Hn].
        apply firstOf_app_old, Hf.
      * destruct (Hrows _ _ Hin) as (Hid & r0 & Hf & Hn).
        split; [exact Hid|]. exists r0. split; [|exact Hn].
        apply firstOf_app_old, Hf.
    + intros r' Hin. apply in_app_or in Hin. destruct Hin as [Hin | [<- | []]].
      * apply map_set_has_other, Hkeys, Hin.
      * apply (map_set_has String.eqb String.eqb_eq).
  - rewrite (enterpriseStep_absent m r Hhas). split.
    + intros k row Hin. apply in_app_or in Hin. destruct Hin as [Hin | [Hin | []]].
      * destruct (Hrows _ _ Hin) as (Hid & r0 & Hf & Hn).
        split; [exact Hid|]. exists r0. split; [|exact Hn].
        apply firstOf_app_old, Hf.
      * injection Hin as <- <-. split; [reflexivity|]. exists r. split; [|reflexivity].
        apply firstOf_app_new. intros d Hd Heq.
        specialize (Hkeys d Hd). rewrite Heq in Hkeys. congruence.
    + intros r' Hin. apply in_app_or in Hin. destruct Hin as [Hin | [<- | []]].
      * rewrite <- (map_set_new String.eqb m _
                     (addToEnterprise r
                        (EnterpriseStat.mk (RiskRecord.enterpriseId r)
                           (RiskRecord.enterpriseName r) 0 0 0 0 0 0 0 0)) Hhas).
        apply map_set_has_other, Hkeys, Hin.
      * rewrite <- (map_set_new String.eqb m _
                     (addToEnterprise r
                        (EnterpriseStat.mk (RiskRecord.enterpriseId r)
                           (RiskRecord.enterpriseName r) 0 0 0 0 0 0 0 0)) Hhas).
        apply (map_set_has String.eqb String.eqb_eq).
Qed.

Lemma enterpriseInv_fold data : enterpriseInv data (fold_left enterpriseStep data []).
Proof.
  induction data as [|r data IH] using rev_ind.
  - split; [intros k row [] | intros r []].
  - rewrite fold_left_app. simpl. apply enterpriseInv_step, IH.
Qed.

Lemma rawStats_snoc data r :
  rawStats (data ++ [r]) = map_values (enterpriseStep (fold_left enterpriseStep data []) r).
Proof. unfold rawStats. rewrite fold_left_app. reflexivity. Qed.

(** C10. First write wins: a row of the per-enterprise rollup carries the
    [enterpriseName] of the first record, in input order, with the row's
    [enterpriseId]; every enterprise of the input has a row; and a record of
    an enterprise that was seen before leaves the ids and names of all rows
    as they were (it changes counters only, and adds no row). *)
Theorem rawStats_first_name_wins :
  forall data,
    (forall row, In row (rawStats data) ->
       exists r, firstOf (EnterpriseStat.id row) data = Some r
                 /\ EnterpriseStat.name row = RiskRecord.enterpriseName r)
    /\ (forall r, In r data ->
          exists row, In row (rawStats data)
                      /\ EnterpriseStat.id row = RiskRecord.enterpriseId r)
    /\ (forall r r0,
          In r0 data -> RiskRecord.enterpriseId r0 = RiskRecord.enterpriseId r ->
          map rowLabel (rawStats (data ++ [r])) = map rowLabel (rawStats data)).
Proof.
  intros data. destruct (enterpriseInv_fold data) as [Hrows Hkeys].
  repeat split.
  - intros row Hin. unfold rawStats, map_values in Hin.
    apply in_map_iff in Hin. destruct Hin as [[k row'] [Heq Hin]]. simpl in Heq. subst row'.
    destruct (Hrows _ _ Hin) as (-> & r & Hf & Hn). exists r. auto.
  - intros r Hin. specialize (Hkeys r Hin).
    apply (map_has_get String.eqb) in Hkeys. destruct Hkeys as [row Hget].
    apply (map_get_In String.eqb String.eqb_eq) in Hget.
    exists row. split.
    + unfold rawStats, map_values. apply in_map_iff. exists (RiskRecord.enterpriseId r, row). auto.
    + apply (Hrows _ _ Hget).
  - intros r r0 Hin Heq. rewrite rawStats_snoc.
    assert (Hhas : map_has String.eqb (fold_left enterpriseStep data [])
                     (RiskRecord.enterpriseId r) = true)
      by (rewrite <- Heq; apply Hkeys, Hin).
    destruct (enterpriseStep_present _ r Hhas) as (stats & Hget & ->).
    apply (map_set_keeps String.eqb rowLabel _ _ stats); [exact Hget | reflexivity].
Qed.

(** Two records of one enterprise with different names: the row keeps the
    first name and adds the second record's weight. *)
Example rawStats_two_names :
  let first := sampleRecord "7501556" "Old name" 0 RiskLevel.HIGH
                 ReviewStatus.PENDING ReviewResult.PENDING (Some 2) in
  let second := sampleRecord "7501556" "New name" 0 RiskLevel.LOW
                  ReviewStatus.PENDING ReviewResult.PENDING (Some 40) in
  rawStats [first; second]
  = [EnterpriseStat.mk "7501556" "Old name" 42 2 0 40 0 0 0 0].
Proof. reflexivity. Qed.

(** * A count of zero *)

Lemma tallyRecord_count s d c c' :
  orOne c = orOne c' ->
  tallyRecord s (RiskRecord.with_count c d) = tallyRecord s (RiskRecord.with_count c' d).
Proof. intros H. unfold tallyRecord. simpl. rewrite H. reflexivity. Qed.

Lemma enterpriseStep_count m d c c' :
  orOne c = orOne c' ->
  enterpriseStep m (RiskRecord.with_count c d) = enterpriseStep m (RiskRecord.with_count c' d).
Proof.
  intros H. unfold enterpriseStep, addToEnterprise. simpl. rewrite H. reflexivity.
Qed.

Lemma dayStep_count tz m d c c' :
  orOne c = orOne c' ->
  dayStep tz m (RiskRecord.with_count c d) = dayStep tz m (RiskRecord.with_count c' d).
Proof.
  intros H. unfold dayStep, addToDay. simpl. rewrite H. reflexivity.
Qed.

Lemma with_count_same d : RiskRecord.with_count (RiskRecord.count d) d = d.
Proof. destruct d; reflexivity. Qed.

Lemma calculateStats_count d c c' pre post :
  orOne c = orOne c' ->
  calculateStats (pre ++ RiskRecord.with_count c d :: post)
  = calculateStats (pre ++ RiskRecord.with_count c' d :: post).
Proof.
  intros H. unfold calculateStats.
  rewrite (fold_left_replace tallyRecord _ (RiskRecord.with_count c' d)); [reflexivity|].
  intros s. apply tallyRecord_count, H.
Qed.

Lemma rawStats_count d c c' pre post :
  orOne c = orOne c' ->
  rawStats (pre ++ RiskRecord.with_count c d :: post)
  = rawStats (pre ++ RiskRecord.with_count c' d :: post).
Proof.
  intros H. unfold rawStats.
  rewrite (fold_left_replace enterpriseStep _ (RiskRecord.with_count c' d)); [reflexivity|].
  intros s. apply enterpriseStep_count, H.
Qed.

Lemma dailyData_count tz d c c' pre post :
  orOne c = orOne c' ->
  dailyData tz (pre ++ RiskRecord.with_count c d :: post)
  = dailyData tz (pre ++ RiskRecord.with_count c' d :: post).
Proof.
  intros H. unfold dailyData.
  rewrite (fold_left_replace (dayStep tz) _ (RiskRecord.with_count c' d)); [reflexivity|].
  intros s. apply dayStep_count, H.
Qed.

(** C9. A record whose [count] is present and 0 weighs 1 in every
    aggregation: [calculateStats], the per-enterprise rollup and the per-day
    rollup return what they return for the same record with [count] unset,
    and for the same record with [count = 1]; the record adds one event to
    the total, not none. *)
Theorem zero_count_weighs_one :
  forall (tz : Z) (d : RiskRecord.t) (pre post : list RiskRecord.t),
    RiskRecord.count d = Some 0 ->
    let unset := RiskRecord.with_count None d in
    let one := RiskRecord.with_count (Some 1) d in
    (calculateStats (pre ++ d :: post) = calculateStats (pre ++ unset :: post)
     /\ calculateStats (pre ++ d :: post) = calculateStats (pre ++ one :: post))
    /\ (rawStats (pre ++ d :: post) = rawStats (pre ++ unset :: post)
        /\ rawStats (pre ++ d :: post) = rawStats (pre ++ one :: post))
    /\ (dailyData tz (pre ++ d :: post) = dailyData tz (pre ++ unset :: post)
        /\ dailyData tz (pre ++ d :: post) = dailyData tz (pre ++ one :: post))
    /\ DashboardStats.totalDetections (calculateStats (pre ++ d :: post))
       = DashboardStats.totalDetections (calculateStats (pre ++ post)) + 1
    /\ map EnterpriseStat.total (rawStats [d]) = [1]
    /\ map DailyAggregatedData.total (dailyData tz [d]) = [1].
Proof.
  intros tz d pre post H unset one.
  assert (Hd : d = RiskRecord.with_count (Some 0) d)
    by (rewrite <- H; symmetry; apply with_count_same).
  repeat split.
  - rewrite Hd at 1. apply calculateStats_count. reflexivity.
  - rewrite Hd at 1. apply calculateStats_count. reflexivity.
  - rewrite Hd at 1. apply rawStats_count. reflexivity.
  - rewrite Hd at 1. apply rawStats_count. reflexivity.
  - rewrite Hd at 1. apply dailyData_count. reflexivity.
  - rewrite Hd at 1. apply dailyData_count. reflexivity.
  - destruct (calculateStats_counters (pre ++ d :: post)) as [-> _].
    destruct (calculateStats_counters (pre ++ post)) as [-> _].
    rewrite !weightSum_app, weightSum_cons, H.
    change (orOne (Some 0)) with 1. cbv beta iota. lia.
  - unfold rawStats, enterpriseStep, addToEnterprise. simpl.
    rewrite !String.eqb_refl. simpl. rewrite H. reflexivity.
  - unfold dailyData, dayStep, addToDay. simpl.
    rewrite !Z.eqb_refl. simpl. rewrite H. reflexivity.
Qed.

Lemma zero_count_weighs_one_sample :
  let d := sampleRecord "7501556" "A" 0 RiskLevel.LOW ReviewStatus.PENDING
             ReviewResult.PENDING (Some 0) in
  RiskRecord.count d = Some 0
  /\ DashboardStats.totalDetections (calculateStats (scenario ++ d :: scenario)) = 15
  /\ map EnterpriseStat.total (rawStats (scenario ++ d :: scenario)) = [5; 10]
  /\ map DailyAggregatedData.total (dailyData 0 (scenario ++ d :: scenario)) = [15].
Proof.
  intros d.
  pose proof (zero_count_weighs_one 0 d scenario scenario eq_refl) as H.
  split; [reflexivity|].
  destruct H as ([H1 _] & [H2 _] & [H3 _] & _).
  rewrite H1, H2, H3. repeat split.
Defined.

(** * The custom range of the time-window filter *)

(** The interval that the custom mode tests: from UTC midnight of the
    start date to the last millisecond of the local day in which UTC
    midnight of the end date falls. *)
Lemma inWindow_custom tz now range d :
  inWindow tz now TimeFilter.custom range d = true <->
  newDateFromDateString (DateRange.start range) <= RiskRecord.callTime d
  /\ RiskRecord.callTime d
     <= fromLocal tz
          (localDay tz (newDateFromDateString (DateRange.end_ range)) * msPerDay
           + 86399999).
Proof.
  unfold inWindow, setHours. rewrite andb_true_iff, !Z.leb_le.
  replace (23 * 3600000 + 59 * 60000 + 59 * 1000 + 999) with 86399999 by reflexivity.
  tauto.
Qed.

(** Where local time is UTC, the custom mode selects by calendar day,
    both ends included. *)
Lemma inWindow_custom_utc now range d :
  inWindow 0 now TimeFilter.custom range d = true <->
  MakeDay (DateString.year (DateRange.start range))
    (DateString.month (DateRange.start range) - 1)
    (DateString.day (DateRange.start range))
  <= localDay 0 (RiskRecord.callTime d)
  <= MakeDay (DateString.year (DateRange.end_ range))
       (DateString.month (DateRange.end_ range) - 1)
       (DateString.day (DateRange.end_ range)).
Proof.
  rewrite inWindow_custom.
  unfold newDateFromDateString, fromLocal, localDay, msPerDay.
  generalize (MakeDay (DateString.year (DateRange.start range))
                (DateString.month (DateRange.start range) - 1)
                (DateString.day (DateRange.start range))).
  generalize (MakeDay (DateString.year (DateRange.end_ range))
                (DateString.month (DateRange.end_ range) - 1)
                (DateString.day (DateRange.end_ range))).
  generalize (RiskRecord.callTime d). intros t e s.
  rewrite !Z.add_0_r, Z.sub_0_r, Z.div_mul by lia.
  pose proof (Z.div_mod t 86400000 ltac:(lia)).
  pose proof (Z.mod_pos_bound t 86400000 ltac:(lia)). lia.
Qed.

(** An instant lies on the local date [s] when it is at or after local
    midnight of [s] and less than a day later. *)
Lemma onLocalDate_interval tz s t :
  onLocalDate tz s t = true <->
  localMidnight tz s <= t < localMidnight tz s + msPerDay.
Proof.
  unfold onLocalDate, localMidnight, newDateLocal, fromLocal, localDay, msPerDay.
  generalize (MakeDay (DateString.year s) (DateString.month s - 1) (DateString.day s)).
  intros day. rewrite Z.eqb_eq.
  pose proof (Z.div_mod (t + tz) 86400000 ltac:(lia)).
  pose proof (Z.mod_pos_bound (t + tz) 86400000 ltac:(lia)). lia.
Qed.

(** East of Greenwich, by less than a day, the custom range of a single
    date drops the record at local midnight of that date. *)
Lemma custom_range_east tz now s d :
  0 < tz < msPerDay ->
  RiskRecord.callTime d = localMidnight tz s ->
  onLocalDate tz s (RiskRecord.callTime d) = true
  /\ inWindow tz now TimeFilter.custom (DateRange.mk s s) d = false.
Proof.
  intros Htz Ht. split.
  - apply onLocalDate_interval. rewrite Ht. unfold msPerDay. lia.
  - destruct (inWindow tz now TimeFilter.custom (DateRange.mk s s) d) eqn:E; [|reflexivity].
    apply inWindow_custom in E. simpl in E. rewrite Ht in E.
    unfold localMidnight, newDateLocal, newDateFromDateString, fromLocal in E. lia.
Qed.

(** C2 at the range 2024-01-10 .. 2024-01-10 in the zone UTC+8.  The
    record at 00:00:00 local time of 2024-01-10 lies on that local date and
    the filter drops it; the record at 23:59:59 local time is kept.  In
    the zone UTC-5 the record at 23:59:59 local time of 2024-01-09 is kept
    and the record at 00:00:00 local time of 2024-01-10 is dropped. *)
Theorem custom_range_not_local_days :
  forall now : Now.t,
    (onLocalDate utcPlus8 jan10 (RiskRecord.callTime (recordAtLocal utcPlus8 jan10 0 0 0)) = true
     /\ inWindow utcPlus8 now TimeFilter.custom jan10Range
          (recordAtLocal utcPlus8 jan10 0 0 0) = false
     /\ filteredData utcPlus8 now
          [recordAtLocal utcPlus8 jan10 0 0 0; recordAtLocal utcPlus8 jan10 23 59 59]
          TimeFilter.custom jan10Range
        = [recordAtLocal utcPlus8 jan10 23 59 59])
    /\ (onLocalDate utcMinus5 jan10
          (RiskRecord.callTime (recordAtLocal utcMinus5 (DateString.mk 2024 1 9) 23 59 59)) = false
        /\ inWindow utcMinus5 now TimeFilter.custom jan10Range
             (recordAtLocal utcMinus5 (DateString.mk 2024 1 9) 23 59 59) = true
        /\ onLocalDate utcMinus5 jan10
             (RiskRecord.callTime (recordAtLocal utcMinus5 jan10 0 0 0)) = true
        /\ inWindow utcMinus5 now TimeFilter.custom jan10Range
             (recordAtLocal utcMinus5 jan10 0 0 0) = false).
Proof. intros now. repeat split. Qed.

(** The same four instants of the scenario where local time is UTC: the
    two on 2024-01-10 are kept, the two around it are dropped. *)
Example custom_range_utc_scenario :
  forall now : Now.t,
    filteredData 0 now
      [recordAtLocal 0 (DateString.mk 2024 1 9) 23 59 59;
       recordAtLocal 0 jan10 0 0 0;
       recordAtLocal 0 jan10 23 59 59;
       recordAtLocal 0 (DateString.mk 2024 1 11) 0 0 0]
      TimeFilter.custom jan10Range
    = [recordAtLocal 0 jan10 0 0 0; recordAtLocal 0 jan10 23 59 59].
Proof. intros now. reflexivity. Qed.

(** * The get-or-create rollups *)

Lemma sumZ_app l1 l2 : sumZ (l1 ++ l2) = sumZ l1 + sumZ l2.
Proof. induction l1 as [|x l1 IH]; simpl; lia. Qed.

Section MapMoreFacts.
Context {K V : Type}.
Variable keq : K -> K -> bool.
Hypothesis keq_eq : forall a b, keq a b = true <-> a = b.

Lemma map_has_keys (m : list (K * V)) k :
  map_has keq m k = true <-> In k (map fst m).
Proof.
  induction m as [|[k0 v0] m IH]; simpl; [split; [discriminate | tauto]|].
  rewrite orb_true_iff, keq_eq, IH. tauto.
Qed.

Lemma map_set_keys (m : list (K * V)) k v :
  map_has keq m k = true -> map fst (map_set keq m k v) = map fst m.
Proof.
  induction m as [|[k0 v0] m IH]; simpl; [discriminate|].
  destruct (keq k0 k); simpl; [reflexivity|]. intros H. rewrite IH; auto.
Qed.

Lemma map_get_set (m : list (K * V)) k v k' :
  map_get keq (map_set keq m k v) k' =
  if keq k k' then Some v else map_get keq m k'.
Proof.
  induction m as [|[k0 v0] m IH]; simpl; [reflexivity|].
  destruct (keq k0 k) eqn:E; simpl.
  - apply keq_eq in E. subst k0. destruct (keq k k'); reflexivity.
  - destruct (keq k0 k') eqn:E'; [|exact IH].
    apply keq_eq in E'. subst k0.
    destruct (keq k k') eqn:E2; [|reflexivity].
    apply keq_eq in E2. subst k'.
    assert (keq k k = true) by (apply keq_eq; reflexivity). congruence.
Qed.

Lemma map_get_unique (m : list (K * V)) k v :
  NoDup (map fst m) -> In (k, v) m -> map_get keq m k = Some v.
Proof.
  induction m as [|[k0 v0] m IH]; simpl; [tauto|].
  intros Hnd [H|H].
  - injection H as -> ->. replace (keq k k) with true; [reflexivity|].
    symmetry. apply keq_eq. reflexivity.
  - inversion Hnd as [|? ? Hnotin Hnd']; subst.
    destruct (keq k0 k) eqn:E; [|auto].
    apply keq_eq in E. subst k0. exfalso. apply Hnotin.
    apply in_map_iff. exists (k, v). auto.
Qed.

(** A write under a present key moves a sum over the values by the
    difference between the new and the old value. *)
Lemma map_set_sum (mu : V -> Z) (m : list (K * V)) k v v' :
  map_get keq m k = Some v ->
  sumZ (map mu (map_values (map_set keq m k v')))
  = sumZ (map mu (map_values m)) - mu v + mu v'.
Proof.
  unfold map_values.
  induction m as [|[k0 v0] m IH]; simpl; [discriminate|].
  destruct (keq k0 k); simpl.
  - intros H. injection H as ->. lia.
  - intros H. rewrite IH; auto. lia.
Qed.
End MapMoreFacts.

Section GroupByFacts.
Context {R K V : Type}.
Variable keq : K -> K -> bool.
Hypothesis keq_eq : forall a b, keq a b = true <-> a = b.
Variable keyOf : R -> K.
Variable fresh : R -> V.
Variable add : R -> V -> V.

Local Abbreviation step := (groupStep keq keyOf fresh add).

Lemma groupStep_present m r :
  map_has keq m (keyOf r) = true ->
  exists v, map_get keq m (keyOf r) = Some v
            /\ step m r = map_set keq m (keyOf r) (add r v).
Proof.
  intros H. unfold step, groupStep. rewrite H.
  destruct (proj1 (map_has_get keq m _) H) as [v Hv].
  exists v. rewrite Hv. auto.
Qed.

Lemma groupStep_absent m r :
  map_has keq m (keyOf r) = false ->
  step m r = m ++ [(keyOf r, add r (fresh r))].
Proof.
  intros H. unfold step, groupStep. rewrite H.
  rewrite (map_set_new keq m _ _ H), (map_get_new keq keq_eq m _ _ H).
  rewrite <- (map_set_new keq m _ (add r (fresh r)) H).
  induction m as [|[k0 v0] m IH]; simpl in *.
  - replace (keq (keyOf r) (keyOf r)) with true; [reflexivity|].
    symmetry. apply keq_eq. reflexivity.
  - destruct (keq k0 (keyOf r)); simpl in *; [discriminate | rewrite IH; auto].
Qed.

(** The keys after a step: unchanged for a key seen before, the new key
    appended otherwise. *)
Lemma groupStep_keys m r :
  map fst (step m r) =
  if map_has keq m (keyOf r) then map fst m else map fst m ++ [keyOf r].
Proof.
  destruct (map_has keq m (keyOf r)) eqn:H.
  - destruct (groupStep_present m r H) as (v & _ & ->).
    apply map_set_keys, H.
  - rewrite (groupStep_absent m r H), map_app. reflexivity.
Qed.

Lemma group_keys_NoDup data : NoDup (map fst (fold_left step data [])).
Proof.
  induction data as [|r data IH] using rev_ind; [constructor|].
  rewrite fold_left_app. simpl. rewrite groupStep_keys.
  destruct (map_has keq (fold_left step data []) (keyOf r)) eqn:H; [exact IH|].
  apply NoDup_app; [exact IH | repeat constructor; intros [] | ].
  intros k Hin [<-|[]]. apply (map_has_keys keq keq_eq) in Hin. congruence.
Qed.

Lemma group_keys_In data k :
  In k (map fst (fold_left step data [])) <-> exists r, In r data /\ keyOf r = k.
Proof.
  induction data as [|r data IH] using rev_ind.
  - simpl. split; [tauto | intros (r & [] & _)].
  - rewrite fold_left_app. simpl. rewrite groupStep_keys.
    destruct (map_has keq (fold_left step data []) (keyOf r)) eqn:H.
    + rewrite IH. split.
      * intros (r' & Hin & Hk). exists r'. split; [apply in_or_app; auto | exact Hk].
      * intros (r' & Hin & Hk). apply in_app_or in Hin. destruct Hin as [Hin|[<-|[]]].
        -- exists r'. auto.
        -- apply IH. rewrite <- Hk. apply (map_has_keys keq keq_eq), H.
    + rewrite in_app_iff, IH. simpl. split.
      * intros [(r' & Hin & Hk) | [<-|[]]].
        -- exists r'. split; [apply in_or_app; auto | exact Hk].
        -- exists r. split; [apply in_or_app; simpl; auto | reflexivity].
      * intros (r' & Hin & Hk). apply in_app_or in Hin. destruct Hin as [Hin|[<-|[]]].
        -- left. exists r'. auto.
        -- right. left. exact Hk.
Qed.

(** What holds of a fresh value after its first update, and is kept by
    every later update, holds of every value of the map. *)
Lemma group_values_invariant (P : K -> V -> Prop) data :
  (forall r, P (keyOf r) (add r (fresh r))) ->
  (forall r k v, P k v -> P k (add r v)) ->
  forall k v, In (k, v) (fold_left step data []) -> P k v.
Proof.
  intros Hfresh Hadd.
  induction data as [|r data IH] using rev_ind; [intros k v []|].
  rewrite fold_left_app. simpl. intros k v Hin.
  destruct (map_has keq (fold_left step data []) (keyOf r)) eqn:H.
  - destruct (groupStep_present _ r H) as (v0 & Hget & Heq).
    rewrite Heq in Hin. apply (map_set_In keq keq_eq) in Hin.
    destruct Hin as [[-> ->] | Hin]; [|auto].
    apply Hadd, IH. apply (map_get_In keq keq_eq), Hget.
  - rewrite (groupStep_absent _ r H) in Hin. apply in_app_or in Hin.
    destruct Hin as [Hin | [Hin|[]]]; [auto|]. injection Hin as <- <-. apply Hfresh.
Qed.

Section Measure.
Variable mu : V -> Z.
Variable w : R -> Z.
Hypothesis mu_fresh : forall r, mu (fresh r) = 0.
Hypothesis mu_add : forall r v, mu (add r v) = mu v + w r.

Local Abbreviation at_key := (valueAt keq mu).

Lemma groupStep_at_key m r k :
  at_key (step m r) k = at_key m k + (if keq (keyOf r) k then w r else 0).
Proof.
  unfold valueAt.
  destruct (map_has keq m (keyOf r)) eqn:H.
  - destruct (groupStep_present m r H) as (v & Hget & ->).
    rewrite (map_get_set keq keq_eq).
    destruct (keq (keyOf r) k) eqn:E.
    + apply keq_eq in E. subst k. rewrite Hget, mu_add. reflexivity.
    + lia.
  - rewrite (groupStep_absent m r H).
    rewrite <- (map_set_new keq m _ _ H), (map_get_set keq keq_eq).
    destruct (keq (keyOf r) k) eqn:E.
    + apply keq_eq in E. subst k.
      assert (Hn : map_get keq m (keyOf r) = None).
      { destruct (map_get keq m (keyOf r)) eqn:G; [|reflexivity].
        assert (map_has keq m (keyOf r) = true)
          by (apply (map_has_get keq); eauto). congruence. }
      rewrite Hn, mu_add, mu_fresh. reflexivity.
    + lia.
Qed.

(** The measure of a value is the sum of the contributions of the records
    filed under its key. *)
Lemma group_value_sum data k v :
  In (k, v) (fold_left step data []) ->
  mu v = sumZ (map w (filter (fun r => keq (keyOf r) k) data)).
Proof.
  intros Hin.
  assert (Hat : at_key (fold_left step data []) k
                = sumZ (map w (filter (fun r => keq (keyOf r) k) data))).
  { clear Hin v. induction data as [|r data IH] using rev_ind; [reflexivity|].
    rewrite fold_left_app. simpl. rewrite groupStep_at_key, IH.
    rewrite filter_app, map_app, sumZ_app. simpl.
    destruct (keq (keyOf r) k); simpl; lia. }
  unfold valueAt in Hat.
  rewrite (map_get_unique keq keq_eq _ k v (group_keys_NoDup data) Hin) in Hat.
  exact Hat.
Qed.

(** The measures of all values add up to the contributions of all records. *)
Lemma group_total_sum data :
  sumZ (map mu (map_values (fold_left step data []))) = sumZ (map w data).
Proof.
  induction data as [|r data IH] using rev_ind; [reflexivity|].
  rewrite fold_left_app. simpl. rewrite map_app, sumZ_app. simpl.
  destruct (map_has keq (fold_left step data []) (keyOf r)) eqn:H.
  - destruct (groupStep_present _ r H) as (v & Hget & ->).
    rewrite (map_set_sum keq mu _ _ v _ Hget), IH, mu_add. lia.
  - rewrite (groupStep_absent _ r H). unfold map_values in *.
    rewrite !map_app, sumZ_app, IH. simpl. rewrite mu_add, mu_fresh. lia.
Qed.
End Measure.
End GroupByFacts.

Lemma enterpriseStep_group :
  enterpriseStep =
  groupStep String.eqb RiskRecord.enterpriseId
    (fun r => EnterpriseStat.mk (RiskRecord.enterpriseId r)
                (RiskRecord.enterpriseName r) 0 0 0 0 0 0 0 0)
    addToEnterprise.
Proof. reflexivity. Qed.

Lemma dayStep_group tz :
  dayStep tz =
  groupStep Z.eqb (dayOf tz)
    (fun r => DailyAggregatedData.mk (dayOf tz r)
                (fromLocal tz (dayOf tz r * msPerDay)) 0 0 0 0)
    addToDay.
Proof. reflexivity. Qed.

(** A weight-sum written as a sum of per-record contributions. *)
Lemma weightSum_contributions (p : RiskRecord.t -> bool) l :
  sumZ (map (fun d => if p d then orOne (RiskRecord.count d) else 0) l) = weightSum p l.
Proof.
  induction l as [|d l IH]; [reflexivity|].
  rewrite weightSum_cons. simpl. rewrite IH. reflexivity.
Qed.

Lemma contributions_filter (q : RiskRecord.t -> bool) (w : RiskRecord.t -> Z) l :
  sumZ (map w (filter q l)) = sumZ (map (fun d => if q d then w d else 0) l).
Proof.
  induction l as [|d l IH]; [reflexivity|]. simpl.
  destruct (q d); simpl; rewrite IH; reflexivity.
Qed.

Lemma weightSum_filter (p q : RiskRecord.t -> bool) l :
  weightSum p (filter q l) = weightSum (fun d => q d && p d) l.
Proof.
  induction l as [|d l IH]; [reflexivity|]. simpl.
  destruct (q d) eqn:Hq.
  - rewrite !weightSum_cons, IH, Hq. reflexivity.
  - rewrite weightSum_cons, IH, Hq. reflexivity.
Qed.

(** * Sorting *)

Section SortFacts.
Context {A : Type}.
Variable cmp : A -> A -> Z.

Lemma insertBy_Permutation x l : Permutation (x :: l) (insertBy cmp x l).
Proof.
  induction l as [|y l IH]; simpl; [apply Permutation_refl|].
  destruct (cmp x y <=? 0); [apply Permutation_refl|].
  eapply perm_trans; [apply perm_swap | apply perm_skip, IH].
Qed.

Lemma sortBy_Permutation l : Permutation l (sortBy cmp l).
Proof.
  induction l as [|x l IH]; simpl; [constructor|].
  eapply perm_trans; [apply perm_skip, IH | apply insertBy_Permutation].
Qed.

Section Ordered.
Hypothesis cmp_total : forall x y, cmp x y <= 0 \/ cmp y x <= 0.
Hypothesis cmp_trans : forall x y z, cmp x y <= 0 -> cmp y z <= 0 -> cmp x z <= 0.

Local Abbreviation le := (fun x y : A => cmp x y <= 0).

Lemma insertBy_sorted x l :
  StronglySorted le l -> StronglySorted le (insertBy cmp x l).
Proof.
  induction 1 as [|y l Hs IH Hall]; simpl; [repeat constructor|].
  destruct (cmp x y <=? 0) eqn:E.
  - apply Z.leb_le in E. constructor; [constructor; assumption|].
    constructor; [exact E|].
    eapply Forall_impl; [|exact Hall]. intros z Hz. exact (cmp_trans _ _ _ E Hz).
  - apply Z.leb_gt in E. constructor; [exact IH|].
    assert (Hyx : cmp y x <= 0) by (destruct (cmp_total x y); [lia | assumption]).
    eapply Permutation_Forall; [apply insertBy_Permutation|].
    constructor; assumption.
Qed.

Lemma sortBy_sorted l : StronglySorted le (sortBy cmp l).
Proof.
  induction l as [|x l IH]; simpl; [constructor | apply insertBy_sorted, IH].
Qed.
End Ordered.

(** A list already in order is returned as it is. *)
Lemma sortBy_of_sorted l :
  StronglySorted (fun x y => cmp x y <= 0) l -> sortBy cmp l = l.
Proof.
  induction 1 as [|x l Hs IH Hall]; simpl; [reflexivity|].
  rewrite IH. destruct l as [|y l]; [reflexivity|]. simpl.
  inversion Hall as [|? ? Hxy _]; subst.
  apply Z.leb_le in Hxy. rewrite Hxy. reflexivity.
Qed.

(** Stability: the elements of one class of ties keep their order. *)
Lemma insertBy_class (p : A -> bool) x l :
  (forall y, p x = true -> 0 < cmp x y -> p y = false) ->
  filter p (insertBy cmp x l) = filter p (x :: l).
Proof.
  intros Hp. induction l as [|y l IH]; [reflexivity|]. simpl insertBy.
  destruct (cmp x y <=? 0) eqn:E; [reflexivity|].
  apply Z.leb_gt in E. simpl in *. rewrite IH.
  destruct (p x) eqn:Hx; [|reflexivity].
  rewrite (Hp y eq_refl E). reflexivity.
Qed.

Lemma sortBy_class (p : A -> bool) l :
  (forall x y, p x = true -> 0 < cmp x y -> p y = false) ->
  filter p (sortBy cmp l) = filter p l.
Proof.
  intros Hp. induction l as [|x l IH]; [reflexivity|]. simpl sortBy.
  rewrite insertBy_class by (intros y; apply Hp). simpl. rewrite IH. reflexivity.
Qed.
End SortFacts.

Lemma sumZ_Permutation l1 l2 : Permutation l1 l2 -> sumZ l1 = sumZ l2.
Proof. induction 1; simpl; lia. Qed.

Lemma sortBy_sum {A} (cmp : A -> A -> Z) (f : A -> Z) l :
  sumZ (map f (sortBy cmp l)) = sumZ (map f l).
Proof.
  symmetry. apply sumZ_Permutation, Permutation_map, sortBy_Permutation.
Qed.

Lemma sortBy_map_NoDup {A B} (cmp : A -> A -> Z) (f : A -> B) l :
  NoDup (map f l) -> NoDup (map f (sortBy cmp l)).
Proof.
  apply Permutation_NoDup, Permutation_map, sortBy_Permutation.
Qed.

Lemma StronglySorted_weaken {A} (P Q : A -> A -> Prop) l :
  (forall a b, P a b -> Q a b) -> StronglySorted P l -> StronglySorted Q l.
Proof.
  intros H. induction 1 as [|x l Hs IH Hall]; constructor; [exact IH|].
  eapply Forall_impl; [|exact Hall]. intros b. apply H.
Qed.

(** Sorting by a numeric field, in either direction. *)
Lemma sortBy_ascending {A} (f : A -> Z) l :
  StronglySorted (fun a b => f a <= f b) (sortBy (fun a b => f a - f b) l).
Proof.
  apply (StronglySorted_weaken (fun a b => f a - f b <= 0)); [intros a b; lia|].
  apply sortBy_sorted; intros; lia.
Qed.

Lemma sortBy_descending {A} (f : A -> Z) l :
  StronglySorted (fun a b => f b <= f a) (sortBy (fun a b => f b - f a) l).
Proof.
  apply (StronglySorted_weaken (fun a b => f b - f a <= 0)); [intros a b; lia|].
  apply sortBy_sorted; intros; lia.
Qed.

(** * Rollups of risk records *)

Section RecordRollup.
Context {K V : Type}.
Variable keq : K -> K -> bool.
Hypothesis keq_eq : forall a b, keq a b = true <-> a = b.
Variable keyOf : RiskRecord.t -> K.
Variable fresh : RiskRecord.t -> V.
Variable add : RiskRecord.t -> V -> V.

Lemma rollup_value mu p data k v :
  counts fresh add mu p ->
  In (k, v) (fold_left (groupStep keq keyOf fresh add) data []) ->
  mu v = weightSum p (filter (fun r => keq (keyOf r) k) data).
Proof.
  intros [Hf Ha] Hin.
  rewrite (group_value_sum keq keq_eq keyOf fresh add mu _ Hf Ha data k v Hin).
  apply weightSum_contributions.
Qed.

Lemma rollup_total mu p data :
  counts fresh add mu p ->
  sumZ (map mu (map_values (fold_left (groupStep keq keyOf fresh add) data [])))
  = weightSum p data.
Proof.
  intros [Hf Ha].
  rewrite (group_total_sum keq keq_eq keyOf fresh add mu _ Hf Ha data).
  apply weightSum_contributions.
Qed.
End RecordRollup.

Ltac counts_tac :=
  split; [reflexivity|];
  let r := fresh "r" in let v := fresh "v" in
  intros r v;
  unfold isReviewed, isLevel, hasResult; simpl;
  destruct (RiskRecord.riskLevel r), (RiskRecord.reviewStatus r),
    (RiskRecord.reviewResult r); simpl; lia.

(** ** The per-enterprise rollup *)

Lemma rawStats_unfold data :
  rawStats data =
  map_values
    (fold_left (groupStep String.eqb RiskRecord.enterpriseId freshEnterprise addToEnterprise)
       data []).
Proof. reflexivity. Qed.

Lemma rawStats_entry data row :
  In row (rawStats data) ->
  In (EnterpriseStat.id row, row)
    (fold_left (groupStep String.eqb RiskRecord.enterpriseId freshEnterprise addToEnterprise)
       data []).
Proof.
  rewrite rawStats_unfold. unfold map_values. intros Hin.
  apply in_map_iff in Hin. destruct Hin as [[k v] [Heq Hin]]. simpl in Heq. subst v.
  replace (EnterpriseStat.id row) with k; [exact Hin|].
  symmetry.
  apply (group_values_invariant String.eqb String.eqb_eq RiskRecord.enterpriseId
           freshEnterprise addToEnterprise (fun k v => EnterpriseStat.id v = k) data);
    auto.
Qed.

Lemma rawStats_ids data :
  map EnterpriseStat.id (rawStats data) =
  map fst
    (fold_left (groupStep String.eqb RiskRecord.enterpriseId freshEnterprise addToEnterprise)
       data []).
Proof.
  rewrite rawStats_unfold. unfold map_values. rewrite map_map.
  apply map_ext_in. intros [k v] Hin. simpl.
  apply (group_values_invariant String.eqb String.eqb_eq RiskRecord.enterpriseId
           freshEnterprise addToEnterprise (fun k v => EnterpriseStat.id v = k) data);
    auto.
Qed.

(** X1. The per-enterprise rollup has exactly one row per enterprise: no
    two rows share an id, and an id has a row exactly when some record
    carries it. *)
Theorem rawStats_one_row_per_enterprise :
  forall data,
    NoDup (map EnterpriseStat.id (rawStats data))
    /\ (forall k, In k (map EnterpriseStat.id (rawStats data)) <->
                  exists r, In r data /\ RiskRecord.enterpriseId r = k).
Proof.
  intros data. rewrite rawStats_ids. split.
  - apply (group_keys_NoDup String.eqb String.eqb_eq).
  - intros k. apply (group_keys_In String.eqb String.eqb_eq).
Qed.

(** X2. Every counter of a row of the per-enterprise rollup is the
    counter that [calculateStats] computes from that enterprise's records
    alone. *)
Theorem rawStats_row_is_calculateStats :
  forall data row,
    In row (rawStats data) ->
    let own :=
      filter (fun r => String.eqb (RiskRecord.enterpriseId r) (EnterpriseStat.id row)) data in
    EnterpriseStat.total row = DashboardStats.totalDetections (calculateStats own)
    /\ EnterpriseStat.high row = DashboardStats.highRiskCount (calculateStats own)
    /\ EnterpriseStat.medium row = DashboardStats.mediumRiskCount (calculateStats own)
    /\ EnterpriseStat.low row = DashboardStats.lowRiskCount (calculateStats own)
    /\ EnterpriseStat.trueFraud row = DashboardStats.trueFraudCount (calculateStats own)
    /\ EnterpriseStat.suspected row = DashboardStats.suspectedFraudCount (calculateStats own)
    /\ EnterpriseStat.illegal row = DashboardStats.illegalBusinessCount (calculateStats own)
    /\ EnterpriseStat.falsePositive row
       = DashboardStats.falsePositiveCount (calculateStats own).
Proof.
  intros data row Hin own. apply rawStats_entry in Hin.
  destruct (calculateStats_counters own) as (-> & -> & -> & -> & _).
  destruct (calculateStats_outcomes own) as (-> & -> & -> & ->).
  repeat split;
    apply (rollup_value String.eqb String.eqb_eq RiskRecord.enterpriseId
             freshEnterprise addToEnterprise _ _ data _ row); try exact Hin;
    counts_tac.
Qed.

Lemma rawStats_row_is_calculateStats_scenario :
  In (EnterpriseStat.mk "7501556" "A" 2 2 0 0 1 0 0 0) (rawStats scenario)
  /\ EnterpriseStat.total (EnterpriseStat.mk "7501556" "A" 2 2 0 0 1 0 0 0)
     = DashboardStats.totalDetections
         (calculateStats
            (filter (fun r => String.eqb (RiskRecord.enterpriseId r) "7501556") scenario)).
Proof.
  assert (H : In (EnterpriseStat.mk "7501556" "A" 2 2 0 0 1 0 0 0) (rawStats scenario))
    by (left; reflexivity).
  split; [exact H|].
  exact (proj1 (rawStats_row_is_calculateStats scenario _ H)).
Defined.

(** X3. The rows of the per-enterprise rollup add up to the dashboard
    totals: the sums of their [total], [high], [medium] and [low] fields
    and of their four outcome fields are the counters of [calculateStats]
    on the same records. *)
Theorem rawStats_sums_to_calculateStats :
  forall data,
    sumZ (map EnterpriseStat.total (rawStats data))
      = DashboardStats.totalDetections (calculateStats data)
    /\ sumZ (map EnterpriseStat.high (rawStats data))
      = DashboardStats.highRiskCount (calculateStats data)
    /\ sumZ (map EnterpriseStat.medium (rawStats data))
      = DashboardStats.mediumRiskCount (calculateStats data)
    /\ sumZ (map EnterpriseStat.low (rawStats data))
      = DashboardStats.lowRiskCount (calculateStats data)
    /\ sumZ (map EnterpriseStat.trueFraud (rawStats data))
      = DashboardStats.trueFraudCount (calculateStats data)
    /\ sumZ (map EnterpriseStat.suspected (rawStats data))
      = DashboardStats.suspectedFraudCount (calculateStats data)
    /\ sumZ (map EnterpriseStat.illegal (rawStats data))
      = DashboardStats.illegalBusinessCount (calculateStats data)
    /\ sumZ (map EnterpriseStat.falsePositive (rawStats data))
      = DashboardStats.falsePositiveCount (calculateStats data).
Proof.
  intros data.
  destruct (calculateStats_counters data) as (-> & -> & -> & -> & _).
  destruct (calculateStats_outcomes data) as (-> & -> & -> & ->).
  rewrite rawStats_unfold.
  repeat split;
    apply (rollup_total String.eqb String.eqb_eq); counts_tac.
Qed.

(** ** The per-day rollup *)

Lemma StronglySorted_weaken_In {A} (P Q : A -> A -> Prop) l :
  (forall a b, In a l -> In b l -> P a b -> Q a b) ->
  StronglySorted P l -> StronglySorted Q l.
Proof.
  intros H Hs. induction Hs as [|x l Hs IH Hall]; constructor.
  - apply IH. intros a b Ha Hb. apply H; right; assumption.
  - apply Forall_forall. intros b Hb.
    apply H; [left; reflexivity | right; exact Hb |].
    rewrite Forall_forall in Hall. auto.
Qed.

(** A list in descending order of a field without repetitions descends
    strictly. *)
Lemma StronglySorted_strict {A} (f : A -> Z) l :
  StronglySorted (fun a b => f b <= f a) l -> NoDup (map f l) ->
  StronglySorted (fun a b => f b < f a) l.
Proof.
  induction 1 as [|x l Hs IH Hall]; intros Hnd; constructor.
  - apply IH. inversion Hnd; assumption.
  - inversion Hnd as [|? ? Hnotin _]; subst.
    apply Forall_forall. intros b Hb. rewrite Forall_forall in Hall.
    specialize (Hall b Hb).
    assert (f b <> f x) by (intros E; apply Hnotin; rewrite <- E; apply in_map, Hb).
    lia.
Qed.

Lemma dailyData_unfold tz data :
  dailyData tz data =
  sortBy (fun a b => DailyAggregatedData.timestamp b - DailyAggregatedData.timestamp a)
    (map_values (fold_left (groupStep Z.eqb (dayOf tz) (freshDay tz) addToDay) data [])).
Proof. reflexivity. Qed.

Lemma dayStep_labels tz data k v :
  In (k, v) (fold_left (groupStep Z.eqb (dayOf tz) (freshDay tz) addToDay) data []) ->
  DailyAggregatedData.date v = k
  /\ DailyAggregatedData.timestamp v = fromLocal tz (k * msPerDay).
Proof.
  apply (group_values_invariant Z.eqb Z.eqb_eq (dayOf tz) (freshDay tz) addToDay
           (fun k v => DailyAggregatedData.date v = k
                       /\ DailyAggregatedData.timestamp v = fromLocal tz (k * msPerDay))).
  - intros r. split; reflexivity.
  - intros r k' v' H. exact H.
Qed.

Lemma dailyData_entry tz data row :
  In row (dailyData tz data) ->
  In (DailyAggregatedData.date row, row)
    (fold_left (groupStep Z.eqb (dayOf tz) (freshDay tz) addToDay) data []).
Proof.
  rewrite dailyData_unfold, sortBy_In. unfold map_values. intros Hin.
  apply in_map_iff in Hin. destruct Hin as [[k v] [Heq Hin]]. simpl in Heq. subst v.
  destruct (dayStep_labels tz data k row Hin) as [-> _]. exact Hin.
Qed.

Lemma dayBuckets_dates tz data :
  map DailyAggregatedData.date
    (map_values (fold_left (groupStep Z.eqb (dayOf tz) (freshDay tz) addToDay) data []))
  = map fst (fold_left (groupStep Z.eqb (dayOf tz) (freshDay tz) addToDay) data []).
Proof.
  unfold map_values. rewrite map_map. apply map_ext_in. intros [k v] Hin. simpl.
  apply (dayStep_labels tz data k v Hin).
Qed.

(** X4. The per-day rollup lists each local calendar day once, most
    recent day first; a day is listed exactly when some record falls on
    it, and a row's timestamp is local midnight of its day. *)
Theorem dailyData_days_descending :
  forall tz data,
    StronglySorted
      (fun a b => DailyAggregatedData.date b < DailyAggregatedData.date a)
      (dailyData tz data)
    /\ (forall day, In day (map DailyAggregatedData.date (dailyData tz data)) <->
                    exists r, In r data /\ dayOf tz r = day)
    /\ (forall row, In row (dailyData tz data) ->
          DailyAggregatedData.timestamp row
          = fromLocal tz (DailyAggregatedData.date row * msPerDay)).
Proof.
  intros tz data.
  assert (Hts : forall row, In row (dailyData tz data) ->
                  DailyAggregatedData.timestamp row
                  = fromLocal tz (DailyAggregatedData.date row * msPerDay)).
  { intros row Hin. apply dailyData_entry in Hin.
    apply (dayStep_labels tz data _ row Hin). }
  split; [|split; [|exact Hts]].
  - apply StronglySorted_strict.
    + apply (StronglySorted_weaken_In
               (fun a b => DailyAggregatedData.timestamp b <= DailyAggregatedData.timestamp a)).
      * intros a b Ha Hb. rewrite (Hts a Ha), (Hts b Hb).
        unfold fromLocal, msPerDay. lia.
      * rewrite dailyData_unfold. apply sortBy_descending.
    + rewrite dailyData_unfold. apply sortBy_map_NoDup.
      rewrite dayBuckets_dates. apply (group_keys_NoDup Z.eqb Z.eqb_eq).
  - intros day. rewrite dailyData_unfold.
    rewrite <- (group_keys_In Z.eqb Z.eqb_eq (dayOf tz) (freshDay tz) addToDay data day).
    rewrite <- dayBuckets_dates. rewrite !in_map_iff.
    split; intros (row & Hd & Hin); exists row; (split; [exact Hd|]).
    + apply sortBy_In in Hin. exact Hin.
    + apply sortBy_In. exact Hin.
Qed.

Lemma dailyData_row_counters :
  forall tz data row,
    In row (dailyData tz data) ->
    let own := recordsOfDay tz (DailyAggregatedData.date row) data in
    DailyAggregatedData.total row = DashboardStats.totalDetections (calculateStats own)
    /\ DailyAggregatedData.high row = DashboardStats.highRiskCount (calculateStats own)
    /\ DailyAggregatedData.medium row = DashboardStats.mediumRiskCount (calculateStats own)
    /\ DailyAggregatedData.low row = DashboardStats.lowRiskCount (calculateStats own).
Proof.
  intros tz data row Hin own. apply dailyData_entry in Hin.
  destruct (calculateStats_counters own) as (-> & -> & -> & -> & _).
  repeat split;
    apply (rollup_value Z.eqb Z.eqb_eq (dayOf tz) (freshDay tz) addToDay _ _ data _ row);
    try exact Hin; counts_tac.
Qed.


(** X5. Day-bucket merge: the counters of a row of the per-day rollup are
    the counters that [calculateStats] computes from the records of that
    local calendar day, whatever their time of day. *)
Theorem dailyData_row_is_calculateStats :
  forall tz data row,
    In row (dailyData tz data) ->
    let own := recordsOfDay tz (DailyAggregatedData.date row) data in
    DailyAggregatedData.total row = DashboardStats.totalDetections (calculateStats own)
    /\ DailyAggregatedData.high row = DashboardStats.highRiskCount (calculateStats own)
    /\ DailyAggregatedData.medium row = DashboardStats.mediumRiskCount (calculateStats own)
    /\ DailyAggregatedData.low row = DashboardStats.lowRiskCount (calculateStats own).
Proof. exact dailyData_row_counters. Qed.

Lemma dailyData_row_is_calculateStats_scenario :
  In (DailyAggregatedData.mk 0 0 7 2 5 0) (dailyData 0 scenario)
  /\ DailyAggregatedData.total (DailyAggregatedData.mk 0 0 7 2 5 0)
     = DashboardStats.totalDetections (calculateStats (recordsOfDay 0 0 scenario)).
Proof.
  assert (H : In (DailyAggregatedData.mk 0 0 7 2 5 0) (dailyData 0 scenario))
    by (left; reflexivity).
  split; [exact H|].
  exact (proj1 (dailyData_row_is_calculateStats 0 scenario _ H)).
Defined.

(** X6. The rows of the per-day rollup add up to the dashboard totals. *)
Theorem dailyData_sums_to_calculateStats :
  forall tz data,
    sumZ (map DailyAggregatedData.total (dailyData tz data))
      = DashboardStats.totalDetections (calculateStats data)
    /\ sumZ (map DailyAggregatedData.high (dailyData tz data))
      = DashboardStats.highRiskCount (calculateStats data)
    /\ sumZ (map DailyAggregatedData.medium (dailyData tz data))
      = DashboardStats.mediumRiskCount (calculateStats data)
    /\ sumZ (map DailyAggregatedData.low (dailyData tz data))
      = DashboardStats.lowRiskCount (calculateStats data).
Proof.
  intros tz data.
  destruct (calculateStats_counters data) as (-> & -> & -> & -> & _).
  rewrite dailyData_unfold.
  repeat split; rewrite sortBy_sum;
    apply (rollup_total Z.eqb Z.eqb_eq); counts_tac.
Qed.

(** ** The outcome counters *)

Lemma weightSum_outcomes l :
  Forall reviewedHasResult l ->
  weightSum (fun d => isReviewed d && hasResult ReviewResult.TRUE_FRAUD d) l
  + weightSum (fun d => isReviewed d && hasResult ReviewResult.SUSPECTED_FRAUD d) l
  + weightSum (fun d => isReviewed d && hasResult ReviewResult.ILLEGAL_BUSINESS d) l
  + weightSum (fun d => isReviewed d && hasResult ReviewResult.FALSE_POSITIVE d) l
  = weightSum isReviewed l.
Proof.
  induction 1 as [|d l Hd _ IH]; [reflexivity|].
  rewrite !weightSum_cons. revert IH.
  generalize
    (weightSum (fun d => isReviewed d && hasResult ReviewResult.TRUE_FRAUD d) l)
    (weightSum (fun d => isReviewed d && hasResult ReviewResult.SUSPECTED_FRAUD d) l)
    (weightSum (fun d => isReviewed d && hasResult ReviewResult.ILLEGAL_BUSINESS d) l)
    (weightSum (fun d => isReviewed d && hasResult ReviewResult.FALSE_POSITIVE d) l)
    (weightSum isReviewed l).
  intros a b c e t IH. unfold reviewedHasResult in Hd. unfold isReviewed, hasResult.
  destruct (RiskRecord.reviewStatus d), (RiskRecord.reviewResult d); simpl;
    first [lia | exfalso; apply Hd; reflexivity].
Qed.

(** X7. Outcome partition: when every reviewed record carries a result
    other than PENDING, the four outcome counters of [calculateStats] add
    up to [reviewedCount]. *)
Theorem calculateStats_outcome_partition :
  forall data,
    Forall reviewedHasResult data ->
    DashboardStats.trueFraudCount (calculateStats data)
    + DashboardStats.suspectedFraudCount (calculateStats data)
    + DashboardStats.illegalBusinessCount (calculateStats data)
    + DashboardStats.falsePositiveCount (calculateStats data)
    = DashboardStats.reviewedCount (calculateStats data).
Proof.
  intros data H.
  destruct (calculateStats_outcomes data) as (-> & -> & -> & ->).
  destruct (calculateStats_counters data) as (_ & _ & _ & _ & _ & _ & ->).
  apply weightSum_outcomes, H.
Qed.

Lemma calculateStats_outcome_partition_scenario :
  Forall reviewedHasResult scenario
  /\ DashboardStats.trueFraudCount (calculateStats scenario)
     + DashboardStats.suspectedFraudCount (calculateStats scenario)
     + DashboardStats.illegalBusinessCount (calculateStats scenario)
     + DashboardStats.falsePositiveCount (calculateStats scenario)
     = 6.
Proof.
  assert (H : Forall reviewedHasResult scenario)
    by (unfold scenario;
        repeat (apply Forall_cons; [intros H; first [discriminate H | discriminate]|]);
        apply Forall_nil).
  split; [exact H|].
  exact (calculateStats_outcome_partition scenario H).
Defined.

(** A reviewed record whose result is still PENDING is counted as
    reviewed and in no outcome counter. *)
Example calculateStats_reviewed_pending_leaks :
  let s :=
    calculateStats
      [sampleRecord "7501556" "A" 0 RiskLevel.HIGH ReviewStatus.REVIEWED
         ReviewResult.PENDING (Some 3)] in
  DashboardStats.reviewedCount s = 3
  /\ DashboardStats.trueFraudCount s + DashboardStats.suspectedFraudCount s
     + DashboardStats.illegalBusinessCount s + DashboardStats.falsePositiveCount s = 0.
Proof. split; reflexivity. Qed.

(** ** The per-day review rollup *)

Lemma weightSum_high_or_medium l :
  weightSum (fun d => isLevel RiskLevel.HIGH d || isLevel RiskLevel.MEDIUM d) l
  = weightSum (isLevel RiskLevel.HIGH) l + weightSum (isLevel RiskLevel.MEDIUM) l.
Proof.
  induction l as [|d l IH]; [reflexivity|].
  rewrite !weightSum_cons, IH. unfold isLevel.
  destruct (RiskRecord.riskLevel d); simpl; lia.
Qed.

Lemma reviewDay_labels tz data k v :
  In (k, v)
    (fold_left
       (groupStep Z.eqb (dayOf tz) (DailyReviewReportTable.freshDay tz)
          DailyReviewReportTable.addToDay) data []) ->
  DailyReviewData.date v = k
  /\ DailyReviewData.timestamp v = fromLocal tz (k * msPerDay).
Proof.
  apply (group_values_invariant Z.eqb Z.eqb_eq (dayOf tz)
           (DailyReviewReportTable.freshDay tz) DailyReviewReportTable.addToDay
           (fun k v => DailyReviewData.date v = k
                       /\ DailyReviewData.timestamp v = fromLocal tz (k * msPerDay))).
  - intros r. split; reflexivity.
  - intros r k' v' H. exact H.
Qed.

Lemma reviewBuckets_entry tz data row :
  In row (DailyReviewReportTable.buckets tz data) ->
  In (DailyReviewData.date row, row)
    (fold_left
       (groupStep Z.eqb (dayOf tz) (DailyReviewReportTable.freshDay tz)
          DailyReviewReportTable.addToDay) data []).
Proof.
  unfold DailyReviewReportTable.buckets, map_values. intros Hin.
  apply in_map_iff in Hin. destruct Hin as [[k v] [Heq Hin]]. simpl in Heq. subst v.
  destruct (reviewDay_labels tz data k row Hin) as [-> _]. exact Hin.
Qed.

Lemma reviewBuckets_dates tz data :
  map DailyReviewData.date (DailyReviewReportTable.buckets tz data)
  = map fst
      (fold_left
         (groupStep Z.eqb (dayOf tz) (DailyReviewReportTable.freshDay tz)
            DailyReviewReportTable.addToDay) data []).
Proof.
  unfold DailyReviewReportTable.buckets, map_values. rewrite map_map.
  apply map_ext_in. intros [k v] Hin. simpl. apply (reviewDay_labels tz data k v Hin).
Qed.

Lemma reviewDaily_In tz data row :
  In row (DailyReviewReportTable.dailyData tz data) <->
  In row (DailyReviewReportTable.buckets tz data)
  /\ DailyReviewReportTable.keepRow row = true.
Proof.
  unfold DailyReviewReportTable.dailyData. rewrite sortBy_In, filter_In. tauto.
Qed.

Lemma NoDup_map_filter {A B} (f : A -> B) (p : A -> bool) l :
  NoDup (map f l) -> NoDup (map f (filter p l)).
Proof.
  induction l as [|x l IH]; simpl; [auto|]. intros H. inversion H as [|? ? Hn Hnd]; subst.
  destruct (p x); simpl; [|auto]. constructor; [|auto].
  intros Hin. apply Hn. apply in_map_iff in Hin. destruct Hin as (y & Hy & Hin).
  apply in_map_iff. exists y. split; [exact Hy|]. apply filter_In in Hin. tauto.
Qed.

(** X8. The per-day review report lists each local calendar day at most
    once, most recent day first, and lists no day on which both the
    reviewed total and the medium-and-high detection count are zero or
    less. *)
Theorem reviewDailyData_rows :
  forall tz data,
    StronglySorted (fun a b => DailyReviewData.date b < DailyReviewData.date a)
      (DailyReviewReportTable.dailyData tz data)
    /\ (forall row, In row (DailyReviewReportTable.dailyData tz data) ->
          (0 < DailyReviewData.reviewedTotal row
           \/ 0 < DailyReviewData.midHighDetectionCount row)
          /\ DailyReviewData.timestamp row
             = fromLocal tz (DailyReviewData.date row * msPerDay)).
Proof.
  intros tz data.
  assert (Hts : forall row, In row (DailyReviewReportTable.dailyData tz data) ->
                  DailyReviewData.timestamp row
                  = fromLocal tz (DailyReviewData.date row * msPerDay)).
  { intros row Hin. apply reviewDaily_In in Hin. destruct Hin as [Hin _].
    apply reviewBuckets_entry in Hin. apply (reviewDay_labels tz data _ row Hin). }
  split.
  - apply StronglySorted_strict.
    + apply (StronglySorted_weaken_In
               (fun a b => DailyReviewData.timestamp b <= DailyReviewData.timestamp a)).
      * intros a b Ha Hb. rewrite (Hts a Ha), (Hts b Hb). unfold fromLocal, msPerDay. lia.
      * apply sortBy_descending.
    + unfold DailyReviewReportTable.dailyData.
      apply sortBy_map_NoDup, NoDup_map_filter.
      rewrite reviewBuckets_dates. apply (group_keys_NoDup Z.eqb Z.eqb_eq).
  - intros row Hin. split; [|apply Hts, Hin].
    apply reviewDaily_In in Hin. destruct Hin as [_ Hk].
    unfold DailyReviewReportTable.keepRow in Hk.
    apply orb_true_iff in Hk. rewrite !Z.ltb_lt in Hk. exact Hk.
Qed.

(** X9. The counters of a row of the per-day review report are those that
    [calculateStats] computes from the records of that local calendar day:
    HIGH plus MEDIUM detections, the reviewed count over all tiers, and
    the four outcome counters. *)
Theorem reviewDailyData_row_is_calculateStats :
  forall tz data row,
    In row (DailyReviewReportTable.dailyData tz data) ->
    let own := recordsOfDay tz (DailyReviewData.date row) data in
    DailyReviewData.midHighDetectionCount row
      = DashboardStats.highRiskCount (calculateStats own)
        + DashboardStats.mediumRiskCount (calculateStats own)
    /\ DailyReviewData.reviewedTotal row = DashboardStats.reviewedCount (calculateStats own)
    /\ DailyReviewData.trueFraud row = DashboardStats.trueFraudCount (calculateStats own)
    /\ DailyReviewData.suspected row
       = DashboardStats.suspectedFraudCount (calculateStats own)
    /\ DailyReviewData.illegal row
       = DashboardStats.illegalBusinessCount (calculateStats own)
    /\ DailyReviewData.falsePositive row
       = DashboardStats.falsePositiveCount (calculateStats own).
Proof.
  intros tz data row Hin own.
  apply reviewDaily_In in Hin. destruct Hin as [Hin _]. apply reviewBuckets_entry in Hin.
  destruct (calculateStats_counters own) as (_ & -> & -> & _ & _ & _ & ->).
  destruct (calculateStats_outcomes own) as (-> & -> & -> & ->).
  split.
  - rewrite (rollup_value Z.eqb Z.eqb_eq (dayOf tz) (DailyReviewReportTable.freshDay tz)
               DailyReviewReportTable.addToDay DailyReviewData.midHighDetectionCount
               (fun d => isLevel RiskLevel.HIGH d || isLevel RiskLevel.MEDIUM d)
               data (DailyReviewData.date row) row); [|counts_tac|exact Hin].
    apply weightSum_high_or_medium.
  - repeat split;
      apply (rollup_value Z.eqb Z.eqb_eq (dayOf tz) (DailyReviewReportTable.freshDay tz)
               DailyReviewReportTable.addToDay _ _ data _ row);
      try exact Hin; counts_tac.
Qed.

Lemma reviewDailyData_row_is_calculateStats_scenario :
  In (DailyReviewData.mk 0 0 7 6 1 0 0 5) (DailyReviewReportTable.dailyData 0 scenario)
  /\ DailyReviewData.midHighDetectionCount (DailyReviewData.mk 0 0 7 6 1 0 0 5)
     = DashboardStats.highRiskCount (calculateStats (recordsOfDay 0 0 scenario))
       + DashboardStats.mediumRiskCount (calculateStats (recordsOfDay 0 0 scenario)).
Proof.
  assert (H : In (DailyReviewData.mk 0 0 7 6 1 0 0 5)
                (DailyReviewReportTable.dailyData 0 scenario))
    by (left; reflexivity).
  split; [exact H|].
  exact (proj1 (reviewDailyData_row_is_calculateStats 0 scenario _ H)).
Defined.

Lemma sum_filter_zero {A} (mu : A -> Z) (keep : A -> bool) l :
  (forall x, In x l -> keep x = false -> mu x = 0) ->
  sumZ (map mu (filter keep l)) = sumZ (map mu l).
Proof.
  induction l as [|x l IH]; [reflexivity|]. intros H. simpl.
  rewrite <- IH by (intros y Hy; apply H; right; exact Hy).
  destruct (keep x) eqn:E; simpl; [reflexivity|].
  rewrite (H x (or_introl eq_refl) E). lia.
Qed.

Lemma Forall_filter' {A} (P : A -> Prop) (p : A -> bool) l :
  Forall P l -> Forall P (filter p l).
Proof.
  rewrite !Forall_forall. intros H x Hx. apply filter_In in Hx. apply H, Hx.
Qed.

(** X10. When no weight is negative, dropping the empty days loses
    nothing: the rows of the per-day review report add up to the reviewed
    count and to the HIGH plus MEDIUM count of [calculateStats]. *)
Theorem reviewDailyData_sums_to_calculateStats :
  forall tz data,
    Forall nonNegativeWeight data ->
    sumZ (map DailyReviewData.reviewedTotal (DailyReviewReportTable.dailyData tz data))
      = DashboardStats.reviewedCount (calculateStats data)
    /\ sumZ (map DailyReviewData.midHighDetectionCount
               (DailyReviewReportTable.dailyData tz data))
      = DashboardStats.highRiskCount (calculateStats data)
        + DashboardStats.mediumRiskCount (calculateStats data).
Proof.
  intros tz data Hnn.
  destruct (calculateStats_counters data) as (_ & -> & -> & _ & _ & _ & ->).
  assert (Hrow : forall row, In row (DailyReviewReportTable.buckets tz data) ->
            0 <= DailyReviewData.reviewedTotal row
            /\ 0 <= DailyReviewData.midHighDetectionCount row).
  { intros row Hin. apply reviewBuckets_entry in Hin. split.
    - rewrite (rollup_value Z.eqb Z.eqb_eq (dayOf tz) (DailyReviewReportTable.freshDay tz)
                 DailyReviewReportTable.addToDay DailyReviewData.reviewedTotal isReviewed
                 data (DailyReviewData.date row) row); [|counts_tac|exact Hin].
      apply weightSum_nonneg, Forall_filter', Hnn.
    - rewrite (rollup_value Z.eqb Z.eqb_eq (dayOf tz) (DailyReviewReportTable.freshDay tz)
                 DailyReviewReportTable.addToDay DailyReviewData.midHighDetectionCount
                 (fun d => isLevel RiskLevel.HIGH d || isLevel RiskLevel.MEDIUM d)
                 data (DailyReviewData.date row) row); [|counts_tac|exact Hin].
      apply weightSum_nonneg, Forall_filter', Hnn. }
  assert (Hdrop : forall row, In row (DailyReviewReportTable.buckets tz data) ->
            DailyReviewReportTable.keepRow row = false ->
            DailyReviewData.reviewedTotal row = 0
            /\ DailyReviewData.midHighDetectionCount row = 0).
  { intros row Hin Hk. destruct (Hrow row Hin).
    unfold DailyReviewReportTable.keepRow in Hk. apply orb_false_iff in Hk.
    rewrite !Z.ltb_ge in Hk. lia. }
  unfold DailyReviewReportTable.dailyData. rewrite !sortBy_sum.
  rewrite !sum_filter_zero by (intros row Hin Hk; apply (Hdrop row Hin Hk)).
  rewrite <- weightSum_high_or_medium.
  unfold DailyReviewReportTable.buckets.
  split; apply (rollup_total Z.eqb Z.eqb_eq); counts_tac.
Qed.

Lemma reviewDailyData_sums_to_calculateStats_scenario :
  Forall nonNegativeWeight scenario
  /\ sumZ (map DailyReviewData.reviewedTotal (DailyReviewReportTable.dailyData 0 scenario))
     = 6.
Proof.
  assert (H : Forall nonNegativeWeight scenario)
    by (unfold scenario; repeat (apply Forall_cons; [unfold nonNegativeWeight, weight; simpl; lia|]);
        apply Forall_nil).
  split; [exact H|].
  exact (proj1 (reviewDailyData_sums_to_calculateStats 0 scenario H)).
Defined.

(** ** The drill-down of a day *)

Lemma drillStep_fold l t m :
  fold_left drillStep l (t, m) =
  (t + weightSum (fun _ => true) l,
   fold_left (groupStep String.eqb RiskRecord.enterpriseId freshDrillEntry addToDrillEntry)
     l m).
Proof.
  revert t m. induction l as [|r l IH]; intros t m; simpl.
  - rewrite weightSum_nil, Z.add_0_r. reflexivity.
  - unfold drillStep at 2. simpl. rewrite IH, weightSum_cons. f_equal. lia.
Qed.

Lemma drillEntries_ids l :
  map DrillEntry.id
    (map_values
       (fold_left (groupStep String.eqb RiskRecord.enterpriseId freshDrillEntry addToDrillEntry)
          l []))
  = map fst
      (fold_left (groupStep String.eqb RiskRecord.enterpriseId freshDrillEntry addToDrillEntry)
         l []).
Proof.
  unfold map_values. rewrite map_map. apply map_ext_in. intros [k v] Hin. simpl.
  apply (group_values_invariant String.eqb String.eqb_eq RiskRecord.enterpriseId
           freshDrillEntry addToDrillEntry (fun k v => DrillEntry.id v = k) l); auto.
Qed.

Lemma drillTarget_weight tz day data :
  weightSum (fun _ => true) (filter (isDrillTarget tz day) data)
  = DashboardStats.highRiskCount (calculateStats (recordsOfDay tz day data))
    + DashboardStats.mediumRiskCount (calculateStats (recordsOfDay tz day data)).
Proof.
  destruct (calculateStats_counters (recordsOfDay tz day data)) as (_ & -> & -> & _).
  rewrite <- weightSum_high_or_medium. unfold recordsOfDay.
  rewrite !weightSum_filter. unfold isDrillTarget.
  induction data as [|d data IH]; [reflexivity|].
  rewrite !weightSum_cons, IH. rewrite andb_true_r. reflexivity.
Qed.

Section DrillDownFacts.
Context {F : Type}.
Variable percent : Z -> Z -> F.
Variable zero : F.

Lemma drillDownData_shape :
  forall tz day data,
    drillDownData percent zero tz None data = None
    /\ exists dd,
         drillDownData percent zero tz (Some day) data = Some dd
         /\ DrillDown.total dd
            = DashboardStats.highRiskCount (calculateStats (recordsOfDay tz day data))
              + DashboardStats.mediumRiskCount (calculateStats (recordsOfDay tz day data))
         /\ sumZ (map DrillItem.count (DrillDown.list dd)) = DrillDown.total dd
         /\ StronglySorted (fun a b => DrillItem.count b <= DrillItem.count a)
              (DrillDown.list dd)
         /\ NoDup (map DrillItem.id (DrillDown.list dd)).
Proof.
  intros tz day data. split; [reflexivity|].
  eexists. split; [reflexivity|]. simpl.
  rewrite drillStep_fold. simpl.
  repeat split.
  - apply drillTarget_weight.
  - rewrite sortBy_sum, map_map. simpl.
    apply (rollup_total String.eqb String.eqb_eq RiskRecord.enterpriseId
             freshDrillEntry addToDrillEntry DrillEntry.count (fun _ => true)).
    split; [reflexivity | intros r v; reflexivity].
  - apply (sortBy_descending (@DrillItem.count F)).
  - apply sortBy_map_NoDup. rewrite map_map. simpl.
    change (fun x : DrillEntry.t => DrillEntry.id x) with DrillEntry.id.
    rewrite drillEntries_ids. apply (group_keys_NoDup String.eqb String.eqb_eq).
Qed.

(** X11. The drill-down of a selected day: its total is the HIGH plus
    MEDIUM count of that day's records, the counts of its entries add up
    to the total, the entries come in descending order of count, and no
    two entries share an enterprise id.  Without a selected day there is
    no drill-down. *)
Theorem drillDownData_total :
  forall tz day data,
    drillDownData percent zero tz None data = None
    /\ exists dd,
         drillDownData percent zero tz (Some day) data = Some dd
         /\ DrillDown.total dd
            = DashboardStats.highRiskCount (calculateStats (recordsOfDay tz day data))
              + DashboardStats.mediumRiskCount (calculateStats (recordsOfDay tz day data))
         /\ sumZ (map DrillItem.count (DrillDown.list dd)) = DrillDown.total dd
         /\ StronglySorted (fun a b => DrillItem.count b <= DrillItem.count a)
              (DrillDown.list dd)
         /\ NoDup (map DrillItem.id (DrillDown.list dd)).
Proof. exact drillDownData_shape. Qed.

(** X12. For a row of the per-day table, the drill-down of that row's
    day totals the row's [high] plus [medium]. *)
Theorem drillDownData_matches_dailyData :
  forall tz data row,
    In row (dailyData tz data) ->
    option_map DrillDown.total
      (drillDownData percent zero tz (Some (DailyAggregatedData.date row)) data)
    = Some (DailyAggregatedData.high row + DailyAggregatedData.medium row).
Proof.
  intros tz data row Hin.
  destruct (dailyData_row_counters tz data row Hin) as (_ & -> & -> & _).
  destruct (drillDownData_shape tz (DailyAggregatedData.date row) data)
    as (_ & dd & Heq & Htot & _).
  rewrite Heq. simpl. rewrite Htot. reflexivity.
Qed.
End DrillDownFacts.

Lemma drillDownData_matches_dailyData_scenario :
  In (DailyAggregatedData.mk 0 0 7 2 5 0) (dailyData 0 scenario)
  /\ option_map DrillDown.total
       (drillDownData (fun a b => (inject_Z a / inject_Z b * 100)%Q) 0%Q
          0 (Some 0) scenario)
     = Some 7.
Proof.
  assert (H : In (DailyAggregatedData.mk 0 0 7 2 5 0) (dailyData 0 scenario))
    by (left; reflexivity).
  split; [exact H|].
  exact (drillDownData_matches_dailyData
           (fun a b => (inject_Z a / inject_Z b * 100)%Q) 0%Q 0 scenario _ H).
Defined.

(** * The charts *)

Lemma sumTier_fold data h m l :
  fold_left RiskDistributionPie.sumTier data (h, m, l) =
  (h + weightSum (isLevel RiskLevel.HIGH) data,
   m + weightSum (isLevel RiskLevel.MEDIUM) data,
   l + weightSum (isLevel RiskLevel.LOW) data).
Proof.
  revert h m l. induction data as [|d data IH]; intros h m l; simpl.
  - rewrite !weightSum_nil, !Z.add_0_r. reflexivity.
  - rewrite IH, !weightSum_cons. unfold isLevel.
    destruct (RiskRecord.riskLevel d); simpl;
      repeat match goal with |- (_, _) = (_, _) => apply f_equal2 end; lia.
Qed.

(** X14. The slices of the risk distribution pie are the three tier
    counters of [calculateStats], in the order HIGH, MEDIUM, LOW. *)
Theorem pie_slices_are_tier_counters :
  forall data,
    RiskDistributionPie.slices data =
    [ (RiskLevel.HIGH, DashboardStats.highRiskCount (calculateStats data));
      (RiskLevel.MEDIUM, DashboardStats.mediumRiskCount (calculateStats data));
      (RiskLevel.LOW, DashboardStats.lowRiskCount (calculateStats data)) ].
Proof.
  intros data.
  destruct (calculateStats_counters data) as (_ & -> & -> & -> & _).
  unfold RiskDistributionPie.slices. rewrite sumTier_fold. reflexivity.
Qed.

(** X15. The later risk distribution pie: its [h], [m], [l] are the
    tier counters of [calculateStats]; its [total] is their sum, which is
    [totalDetections] when every tier is HIGH, MEDIUM or LOW; and when no
    weight is negative the slices it shows are positive and add up to
    [abnormalTotal]. *)
Theorem pie_stats_agree_with_calculateStats :
  forall data,
    let s := RiskDistributionPie.stats data in
    let c := calculateStats data in
    (RiskDistributionPie.h s = DashboardStats.highRiskCount c
     /\ RiskDistributionPie.m s = DashboardStats.mediumRiskCount c
     /\ RiskDistributionPie.l s = DashboardStats.lowRiskCount c)
    /\ (Forall knownTier data ->
        RiskDistributionPie.total s = DashboardStats.totalDetections c)
    /\ Forall (fun item => 0 < snd item) (RiskDistributionPie.pieData s)
    /\ (Forall nonNegativeWeight data ->
        sumZ (map snd (RiskDistributionPie.pieData s))
        = RiskDistributionPie.abnormalTotal s).
Proof.
  intros data. cbv zeta.
  destruct (calculateStats_counters data) as (-> & -> & -> & -> & _).
  unfold RiskDistributionPie.stats. rewrite sumTier_fold. simpl.
  split; [repeat split|]. split; [|split].
  - intros H. apply weightSum_tiers, H.
  - destruct (0 <? weightSum (isLevel RiskLevel.HIGH) data) eqn:E1;
      destruct (0 <? weightSum (isLevel RiskLevel.MEDIUM) data) eqn:E2;
      repeat constructor; simpl; apply Z.ltb_lt; assumption.
  - intros H.
    pose proof (weightSum_nonneg (isLevel RiskLevel.HIGH) data H).
    pose proof (weightSum_nonneg (isLevel RiskLevel.MEDIUM) data H).
    destruct (0 <? weightSum (isLevel RiskLevel.HIGH) data) eqn:E1;
      destruct (0 <? weightSum (isLevel RiskLevel.MEDIUM) data) eqn:E2;
      simpl; rewrite ?Z.ltb_lt, ?Z.ltb_ge in *; lia.
Qed.

Lemma countRecord_fold l c :
  fold_left ReviewOutcomeChart.countRecord l c =
  ReviewOutcomeChart.mkCounts
    (ReviewOutcomeChart.trueFraud c + weightSum (hasResult ReviewResult.TRUE_FRAUD) l)
    (ReviewOutcomeChart.suspectedFraud c
     + weightSum (hasResult ReviewResult.SUSPECTED_FRAUD) l)
    (ReviewOutcomeChart.illegalBusiness c
     + weightSum (hasResult ReviewResult.ILLEGAL_BUSINESS) l)
    (ReviewOutcomeChart.falsePositive c
     + weightSum (hasResult ReviewResult.FALSE_POSITIVE) l).
Proof.
  revert c. induction l as [|d l IH]; intros c; simpl.
  - rewrite !weightSum_nil, !Z.add_0_r. destruct c; reflexivity.
  - rewrite IH, !weightSum_cons. unfold ReviewOutcomeChart.countRecord, hasResult.
    destruct (RiskRecord.reviewResult d); simpl; f_equal; lia.
Qed.

(** X16. The bars of the review outcome chart are the four outcome
    counters of [calculateStats]. *)
Theorem outcome_bars_are_outcome_counters :
  forall data,
    ReviewOutcomeChart.stats data =
    [ (ReviewResult.TRUE_FRAUD, DashboardStats.trueFraudCount (calculateStats data));
      (ReviewResult.SUSPECTED_FRAUD,
       DashboardStats.suspectedFraudCount (calculateStats data));
      (ReviewResult.ILLEGAL_BUSINESS,
       DashboardStats.illegalBusinessCount (calculateStats data));
      (ReviewResult.FALSE_POSITIVE,
       DashboardStats.falsePositiveCount (calculateStats data)) ].
Proof.
  intros data.
  destruct (calculateStats_outcomes data) as (-> & -> & -> & ->).
  unfold ReviewOutcomeChart.stats. rewrite countRecord_fold. simpl.
  rewrite !weightSum_filter. reflexivity.
Qed.

(** ** The trend chart *)

Lemma StronglySorted_snoc_inv {A} (R : A -> A -> Prop) l x :
  StronglySorted R (l ++ [x]) -> StronglySorted R l /\ Forall (fun a => R a x) l.
Proof.
  induction l as [|y l IH]; simpl; intros H; [split; constructor|].
  inversion H as [|? ? Hs Hall]; subst. destruct (IH Hs) as [Hl Hx].
  apply Forall_app in Hall. destruct Hall as [Hall Hyx].
  split; constructor; auto. inversion Hyx; assumption.
Qed.

Lemma StronglySorted_snoc {A} (R : A -> A -> Prop) l x :
  StronglySorted R l -> Forall (fun a => R a x) l -> StronglySorted R (l ++ [x]).
Proof.
  induction 1 as [|y l Hs IH Hall]; simpl; intros Hx; [repeat constructor|].
  inversion Hx; subst. constructor; [auto|].
  apply Forall_app. split; [exact Hall | repeat constructor; assumption].
Qed.

Lemma StronglySorted_rev {A} (R : A -> A -> Prop) l :
  StronglySorted R l -> StronglySorted (fun a b => R b a) (rev l).
Proof.
  induction 1 as [|x l Hs IH Hall]; simpl; [constructor|].
  apply StronglySorted_snoc; [exact IH|].
  apply Forall_rev. exact Hall.
Qed.

Lemma StronglySorted_map {A B} (f : A -> B) (R : B -> B -> Prop) l :
  StronglySorted R (map f l) -> StronglySorted (fun a b => R (f a) (f b)) l.
Proof.
  induction l as [|x l IH]; simpl; intros H; [constructor|].
  inversion H as [|? ? Hs Hall]; subst. constructor; [auto|].
  rewrite Forall_map in Hall. exact Hall.
Qed.

Lemma dayOf_monotone tz a b :
  RiskRecord.callTime a <= RiskRecord.callTime b -> dayOf tz a <= dayOf tz b.
Proof.
  intros H. unfold dayOf, localDay, msPerDay. apply Z.div_le_mono; lia.
Qed.

(** For records that come newest first, the days are met in strictly
    descending order. *)
Lemma group_days_descending {V} tz (fresh : RiskRecord.t -> V) add data :
  newestFirst data ->
  StronglySorted (fun a b => b < a)
    (map fst (fold_left (groupStep Z.eqb (dayOf tz) fresh add) data [])).
Proof.
  induction data as [|r data IH] using rev_ind; intros Hs; [constructor|].
  apply StronglySorted_snoc_inv in Hs. destruct Hs as [Hs Hr].
  rewrite fold_left_app. simpl.
  rewrite (groupStep_keys Z.eqb Z.eqb_eq).
  destruct (map_has Z.eqb (fold_left (groupStep Z.eqb (dayOf tz) fresh add) data [])
              (dayOf tz r)) eqn:Hhas; [auto|].
  apply StronglySorted_snoc; [auto|].
  apply Forall_forall. intros k Hk.
  assert (Hne : k <> dayOf tz r).
  { intros ->. apply (map_has_keys Z.eqb Z.eqb_eq) in Hk. congruence. }
  apply (group_keys_In Z.eqb Z.eqb_eq) in Hk. destruct Hk as (r' & Hin & <-).
  rewrite Forall_forall in Hr. specialize (Hr r' Hin). cbv beta in Hr.
  pose proof (dayOf_monotone tz r r' Hr). lia.
Qed.

Lemma trendEntries_dates tz data :
  map TrendEntry.date
    (map_values
       (fold_left
          (groupStep Z.eqb (dayOf tz) (fun d => TrendEntry.mk (dayOf tz d) 0 0 0)
             RiskTrendChart.addToEntry) data []))
  = map fst
      (fold_left
         (groupStep Z.eqb (dayOf tz) (fun d => TrendEntry.mk (dayOf tz d) 0 0 0)
            RiskTrendChart.addToEntry) data []).
Proof.
  unfold map_values. rewrite map_map. apply map_ext_in. intros [k v] Hin. simpl.
  apply (group_values_invariant Z.eqb Z.eqb_eq (dayOf tz)
           (fun d => TrendEntry.mk (dayOf tz d) 0 0 0) RiskTrendChart.addToEntry
           (fun k v => TrendEntry.date v = k) data); auto.
  - intros r. unfold RiskTrendChart.addToEntry.
    destruct (RiskRecord.riskLevel r); reflexivity.
  - intros r k' v' H. unfold RiskTrendChart.addToEntry.
    destruct (RiskRecord.riskLevel r); exact H.
Qed.

Lemma map_has_existsb {V} (m : list (Z * V)) k :
  map_has Z.eqb m k = existsb (fun k0 => k0 =? k) (map fst m).
Proof.
  induction m as [|[k0 v0] m IH]; simpl; [reflexivity|]. rewrite IH. reflexivity.
Qed.

Lemma filter_filter_and {A} (p q : A -> bool) l :
  filter p (filter q l) = filter (fun x => q x && p x) l.
Proof.
  induction l as [|x l IH]; simpl; [reflexivity|].
  destruct (q x); simpl; [destruct (p x); rewrite IH; reflexivity | exact IH].
Qed.

(** The keys of a day rollup started from the map [m]: the keys of [m],
    then the new days in the order in which they are first met. *)
Lemma group_days_from {V} tz (fresh : RiskRecord.t -> V) add data :
  forall m,
    map fst (fold_left (groupStep Z.eqb (dayOf tz) fresh add) data m)
    = map fst m
      ++ filter (fun k => negb (map_has Z.eqb m k))
           (firstAppearance (map (dayOf tz) data)).
Proof.
  induction data as [|r data IH]; intros m; simpl.
  - rewrite app_nil_r. reflexivity.
  - rewrite IH, (groupStep_keys Z.eqb Z.eqb_eq).
    destruct (map_has Z.eqb m (dayOf tz r)) eqn:Hhas; simpl.
    + f_equal. rewrite filter_filter_and. apply filter_ext_in. intros k _.
      rewrite !map_has_existsb, (groupStep_keys Z.eqb Z.eqb_eq), Hhas.
      rewrite <- map_has_existsb.
      destruct (k =? dayOf tz r) eqn:E; [|reflexivity].
      apply Z.eqb_eq in E. subst k. rewrite Hhas. reflexivity.
    + rewrite <- app_assoc. simpl. f_equal. f_equal.
      rewrite filter_filter_and. apply filter_ext_in. intros k _.
      rewrite !map_has_existsb, (groupStep_keys Z.eqb Z.eqb_eq), Hhas.
      rewrite existsb_app. simpl. rewrite orb_false_r, negb_orb.
      rewrite (Z.eqb_sym (dayOf tz r) k). apply andb_comm.
Qed.

Lemma filter_true {A} (l : list A) : filter (fun _ => true) l = l.
Proof. induction l as [|x l IH]; simpl; [reflexivity | rewrite IH; reflexivity]. Qed.

(** X17. The trend chart lists the local days in the reverse of the
    order in which they are first met in the input.  For records that come
    newest first, the order in which the generator returns them, the chart
    is therefore chronological: its entries are in strictly ascending
    order of day. *)
Theorem trend_chart_chronological :
  forall tz data,
    map TrendEntry.date (RiskTrendChart.dailyStats tz data)
    = rev (firstAppearance (map (dayOf tz) data))
    /\ (newestFirst data ->
        StronglySorted (fun a b => TrendEntry.date a < TrendEntry.date b)
          (RiskTrendChart.dailyStats tz data)).
Proof.
  intros tz data. split.
  - unfold RiskTrendChart.dailyStats. rewrite map_rev, trendEntries_dates.
    rewrite group_days_from. simpl. rewrite filter_true. reflexivity.
  - intros Hs. apply StronglySorted_map.
    unfold RiskTrendChart.dailyStats. rewrite map_rev, trendEntries_dates.
    apply (StronglySorted_rev (fun a b => b < a)).
    apply group_days_descending, Hs.
Qed.

Lemma trend_chart_chronological_sample :
  newestFirst
    [recordAtLocal 0 jan10 9 0 0; recordAtLocal 0 jan10 8 0 0;
     recordAtLocal 0 (DateString.mk 2024 1 9) 23 0 0]
  /\ StronglySorted (fun a b => TrendEntry.date a < TrendEntry.date b)
       (RiskTrendChart.dailyStats 0
          [recordAtLocal 0 jan10 9 0 0; recordAtLocal 0 jan10 8 0 0;
           recordAtLocal 0 (DateString.mk 2024 1 9) 23 0 0]).
Proof.
  assert (H : newestFirst
                [recordAtLocal 0 jan10 9 0 0; recordAtLocal 0 jan10 8 0 0;
                 recordAtLocal 0 (DateString.mk 2024 1 9) 23 0 0]).
  { unfold newestFirst.
    repeat (apply SSorted_cons;
            [|repeat (apply Forall_cons; [vm_compute; discriminate|]); apply Forall_nil]).
    apply SSorted_nil. }
  split; [exact H|].
  exact (proj2 (trend_chart_chronological 0 _) H).
Defined.

Example firstAppearance_sample : firstAppearance [3; 1; 3; 2; 1] = [3; 1; 2].
Proof. reflexivity. Qed.

(** For records in another order the chart follows the order in which
    the days are first met, reversed. *)
Example trend_chart_oldest_first :
  map TrendEntry.date
    (RiskTrendChart.dailyStats 0
       [recordAtLocal 0 (DateString.mk 2024 1 9) 23 0 0; recordAtLocal 0 jan10 9 0 0])
  = [19732; 19731].
Proof. reflexivity. Qed.

(** * The filter bar *)

Lemma dispatch_keeps_picker_invariant st e :
  AppState.showCustomPicker st = false
  \/ AppState.timeFilter st = TimeFilter.custom ->
  AppState.showCustomPicker (dispatch st e) = false
  \/ AppState.timeFilter (dispatch st e) = TimeFilter.custom.
Proof.
  destruct st as [tf show range]. destruct e as [id| | |type value]; simpl.
  - intros _. destruct id; simpl; auto.
  - intros [-> | ->]; simpl; [destruct tf; simpl; auto | destruct show; simpl; auto].
  - auto.
  - auto.
Qed.

(** X18. Whatever the user clicks in the filter bar, the custom date
    picker is only open while the active filter is the custom one. *)
Theorem picker_open_only_in_custom_mode :
  forall (range : DateRange.t) (events : list FilterEvent),
    AppState.showCustomPicker (fold_left dispatch events (initialState range)) = false
    \/ AppState.timeFilter (fold_left dispatch events (initialState range))
       = TimeFilter.custom.
Proof.
  intros range events.
  assert (H : forall st,
             AppState.showCustomPicker st = false
             \/ AppState.timeFilter st = TimeFilter.custom ->
             AppState.showCustomPicker (fold_left dispatch events st) = false
             \/ AppState.timeFilter (fold_left dispatch events st) = TimeFilter.custom).
  { induction events as [|e events IH]; intros st Hst; simpl; [exact Hst|].
    apply IH, dispatch_keeps_picker_invariant, Hst. }
  apply H. left. reflexivity.
Qed.

(** * The time windows *)

Lemma local_midnight_le day tz t :
  fromLocal tz (day * msPerDay) <= t <-> day <= localDay tz t.
Proof.
  unfold fromLocal, localDay, msPerDay.
  pose proof (Z.div_mod (t + tz) 86400000 ltac:(lia)).
  pose proof (Z.mod_pos_bound (t + tz) 86400000 ltac:(lia)). lia.
Qed.

Lemma local_midnight_gt day tz t :
  t < fromLocal tz (day * msPerDay) <-> localDay tz t < day.
Proof. pose proof (local_midnight_le day tz t). lia. Qed.

Lemma MakeDay_shift year month date k :
  MakeDay year month (date - k) = MakeDay year month date - k.
Proof. unfold MakeDay. lia. Qed.

Lemma window_days :
  forall tz now range d,
    let todayDay := MakeDay (Now.fullYear now) (Now.month now) (Now.date now) in
    (inWindow tz now TimeFilter.today range d = true <-> todayDay <= dayOf tz d)
    /\ (inWindow tz now TimeFilter.yesterday range d = true <->
        dayOf tz d = todayDay - 1)
    /\ (inWindow tz now TimeFilter.days7 range d = true <-> todayDay - 7 <= dayOf tz d)
    /\ (inWindow tz now TimeFilter.days30 range d = true <-> todayDay - 30 <= dayOf tz d)
    /\ (inWindow tz now TimeFilter.year range d = true <->
        MakeDay (Now.fullYear now - 1) (Now.month now) (Now.date now) <= dayOf tz d).
Proof.
  intros tz now range d todayDay. unfold inWindow, newDateLocal, dayOf.
  rewrite !MakeDay_shift. fold todayDay.
  repeat split;
    rewrite ?andb_true_iff, ?Z.ltb_lt, ?Z.leb_le, ?local_midnight_le, ?local_midnight_gt;
    lia.
Qed.

(** X19. The relative windows select whole local calendar days: `today`
    keeps the records of today and later, `yesterday` exactly those of
    the day before today, `7days` and `30days` those of the last 7 and 30
    days and today, `year` those from the same date one year back. *)
Theorem relative_windows_are_calendar_days :
  forall tz now range d,
    let todayDay := MakeDay (Now.fullYear now) (Now.month now) (Now.date now) in
    (inWindow tz now TimeFilter.today range d = true <-> todayDay <= dayOf tz d)
    /\ (inWindow tz now TimeFilter.yesterday range d = true <->
        dayOf tz d = todayDay - 1)
    /\ (inWindow tz now TimeFilter.days7 range d = true <-> todayDay - 7 <= dayOf tz d)
    /\ (inWindow tz now TimeFilter.days30 range d = true <-> todayDay - 30 <= dayOf tz d)
    /\ (inWindow tz now TimeFilter.year range d = true <->
        MakeDay (Now.fullYear now - 1) (Now.month now) (Now.date now) <= dayOf tz d).
Proof. exact window_days. Qed.

Lemma DayFromYear_step y : 364 <= DayFromYear y - DayFromYear (y - 1) <= 367.
Proof.
  unfold DayFromYear.
  pose proof (Z.div_mod (y - 1969) 4 ltac:(lia)).
  pose proof (Z.mod_pos_bound (y - 1969) 4 ltac:(lia)).
  pose proof (Z.div_mod (y - 1 - 1969) 4 ltac:(lia)).
  pose proof (Z.mod_pos_bound (y - 1 - 1969) 4 ltac:(lia)).
  pose proof (Z.div_mod (y - 1901) 100 ltac:(lia)).
  pose proof (Z.mod_pos_bound (y - 1901) 100 ltac:(lia)).
  pose proof (Z.div_mod (y - 1 - 1901) 100 ltac:(lia)).
  pose proof (Z.mod_pos_bound (y - 1 - 1901) 100 ltac:(lia)).
  pose proof (Z.div_mod (y - 1601) 400 ltac:(lia)).
  pose proof (Z.mod_pos_bound (y - 1601) 400 ltac:(lia)).
  pose proof (Z.div_mod (y - 1 - 1601) 400 ltac:(lia)).
  pose proof (Z.mod_pos_bound (y - 1 - 1601) 400 ltac:(lia)).
  lia.
Qed.

Lemma daysBeforeMonth_leap m a b :
  -1 <= daysBeforeMonth a m - daysBeforeMonth b m <= 1.
Proof.
  unfold daysBeforeMonth.
  destruct (a && (2 <=? m)), (b && (2 <=? m)); lia.
Qed.

(** One year back is at least 363 days back. *)
Lemma MakeDay_year_back year month date :
  MakeDay (year - 1) month date <= MakeDay year month date - 363.
Proof.
  unfold MakeDay.
  replace (year - 1 + month / 12) with (year + month / 12 - 1) by lia.
  pose proof (DayFromYear_step (year + month / 12)).
  pose proof (daysBeforeMonth_leap (month mod 12) (InLeapYear (year + month / 12))
                (InLeapYear (year + month / 12 - 1))).
  lia.
Qed.

(** X20. The relative windows are nested: what `today` or `yesterday`
    shows is shown by `7days`, what `7days` shows by `30days`, and what
    `30days` shows by `year`; no record is shown by both `today` and
    `yesterday`. *)
Theorem relative_windows_nested :
  forall tz now rawData range,
    incl (filteredData tz now rawData TimeFilter.today range)
         (filteredData tz now rawData TimeFilter.days7 range)
    /\ incl (filteredData tz now rawData TimeFilter.yesterday range)
            (filteredData tz now rawData TimeFilter.days7 range)
    /\ incl (filteredData tz now rawData TimeFilter.days7 range)
            (filteredData tz now rawData TimeFilter.days30 range)
    /\ incl (filteredData tz now rawData TimeFilter.days30 range)
            (filteredData tz now rawData TimeFilter.year range)
    /\ (forall d, In d (filteredData tz now rawData TimeFilter.today range) ->
                  ~ In d (filteredData tz now rawData TimeFilter.yesterday range)).
Proof.
  intros tz now rawData range.
  assert (W := fun d => window_days tz now range d).
  cbv zeta in W.
  pose proof (MakeDay_year_back (Now.fullYear now) (Now.month now) (Now.date now)) as Hy.
  unfold filteredData, incl.
  repeat split; intros d; rewrite !filter_In;
    destruct (W d) as (W1 & W2 & W3 & W4 & W5);
    rewrite ?W1, ?W2, ?W3, ?W4, ?W5; try (intros [Hin H]; split; [exact Hin | lia]).
  intros [_ H] [_ H']. lia.
Qed.

(** X21. Where local time is UTC, the custom range selects exactly the
    records whose day lies between the start date and the end date, both
    included. *)
Theorem filteredData_custom_utc :
  forall now rawData range d,
    In d (filteredData 0 now rawData TimeFilter.custom range) <->
    In d rawData
    /\ MakeDay (DateString.year (DateRange.start range))
         (DateString.month (DateRange.start range) - 1)
         (DateString.day (DateRange.start range))
       <= dayOf 0 d
       <= MakeDay (DateString.year (DateRange.end_ range))
            (DateString.month (DateRange.end_ range) - 1)
            (DateString.day (DateRange.end_ range)).
Proof.
  intros now rawData range d. unfold filteredData.
  rewrite filter_In, inWindow_custom_utc. reflexivity.
Qed.

Lemma filter_none {A} (p : A -> bool) l :
  (forall x, In x l -> p x = false) -> filter p l = [].
Proof.
  induction l as [|x l IH]; intros H; simpl; [reflexivity|].
  rewrite (H x (or_introl eq_refl)). apply IH. intros y Hy. apply H. right. exact Hy.
Qed.

(** X22. A custom range whose end date lies before its start date
    selects nothing, in every zone less than a day from UTC. *)
Theorem filteredData_inverted_range_empty :
  forall tz now rawData range,
    - msPerDay < tz < msPerDay ->
    MakeDay (DateString.year (DateRange.end_ range))
      (DateString.month (DateRange.end_ range) - 1)
      (DateString.day (DateRange.end_ range))
    < MakeDay (DateString.year (DateRange.start range))
        (DateString.month (DateRange.start range) - 1)
        (DateString.day (DateRange.start range)) ->
    filteredData tz now rawData TimeFilter.custom range = [].
Proof.
  intros tz now rawData range Htz Hinv. unfold filteredData.
  apply filter_none. intros d _.
  destruct (inWindow tz now TimeFilter.custom range d) eqn:E; [|reflexivity].
  apply inWindow_custom in E. exfalso. revert E Hinv Htz.
  unfold newDateFromDateString, fromLocal, localDay, msPerDay.
  generalize (MakeDay (DateString.year (DateRange.end_ range))
                (DateString.month (DateRange.end_ range) - 1)
                (DateString.day (DateRange.end_ range))).
  generalize (MakeDay (DateString.year (DateRange.start range))
                (DateString.month (DateRange.start range) - 1)
                (DateString.day (DateRange.start range))).
  generalize (RiskRecord.callTime d). intros t s e E Hinv Htz.
  pose proof (Z.div_mod (e * 86400000 + tz) 86400000 ltac:(lia)).
  pose proof (Z.mod_pos_bound (e * 86400000 + tz) 86400000 ltac:(lia)).
  lia.
Qed.

Lemma filteredData_inverted_range_empty_sample :
  - msPerDay < utcPlus8 < msPerDay
  /\ filteredData utcPlus8 (Now.mk 2024 0 15)
       [recordAtLocal utcPlus8 jan10 12 0 0] TimeFilter.custom
       (DateRange.mk (DateString.mk 2024 1 11) (DateString.mk 2024 1 9))
     = [].
Proof.
  assert (H : - msPerDay < utcPlus8 < msPerDay) by (unfold msPerDay, utcPlus8; lia).
  split; [exact H|].
  apply (filteredData_inverted_range_empty utcPlus8 (Now.mk 2024 0 15)
           [recordAtLocal utcPlus8 jan10 12 0 0]
           (DateRange.mk (DateString.mk 2024 1 11) (DateString.mk 2024 1 9)) H).
  vm_compute. reflexivity.
Defined.

(** * The sorted table *)

Lemma compareRows_le k d a b : compareRows k d a b <= 0 <-> inOrder k d a b.
Proof. unfold compareRows, inOrder. destruct d; lia. Qed.

Lemma compareRows_sorted k d l :
  StronglySorted (fun a b => compareRows k d a b <= 0) (sortBy (compareRows k d) l).
Proof.
  apply sortBy_sorted.
  - intros x y. unfold compareRows. destruct d; lia.
  - intros x y z. unfold compareRows. destruct d; lia.
Qed.

Lemma processedData_order :
  forall rows searchTerm k d,
    StronglySorted (inOrder k d)
      (processedData rows searchTerm (SortConfig.mk (Some k) d))
    /\ Permutation (filterRows rows searchTerm)
         (processedData rows searchTerm (SortConfig.mk (Some k) d))
    /\ processedData rows searchTerm (SortConfig.mk None d) = filterRows rows searchTerm.
Proof.
  intros rows searchTerm k d. unfold processedData. simpl. repeat split.
  - apply (StronglySorted_weaken (fun a b => compareRows k d a b <= 0)).
    + intros a b. apply compareRows_le.
    + apply compareRows_sorted.
  - apply sortBy_Permutation.
Qed.

(** X23. With a sort key the table shows the filtered rows, each once,
    in the order of the key's field in the requested direction; without a
    key it shows the filtered rows as they are. *)
Theorem processedData_sorted :
  forall rows searchTerm k d,
    StronglySorted (inOrder k d)
      (processedData rows searchTerm (SortConfig.mk (Some k) d))
    /\ Permutation (filterRows rows searchTerm)
         (processedData rows searchTerm (SortConfig.mk (Some k) d))
    /\ processedData rows searchTerm (SortConfig.mk None d) = filterRows rows searchTerm.
Proof. exact processedData_order. Qed.

(** X24. The sort is stable: rows whose key field has the same value
    keep the order they have among the filtered rows, in both
    directions. *)
Theorem processedData_stable :
  forall rows searchTerm k d v,
    filter (fun row => EnterpriseStat.field k row =? v)
      (processedData rows searchTerm (SortConfig.mk (Some k) d))
    = filter (fun row => EnterpriseStat.field k row =? v) (filterRows rows searchTerm).
Proof.
  intros rows searchTerm k d v. unfold processedData. simpl.
  apply sortBy_class. intros x y Hx Hlt.
  apply Z.eqb_eq in Hx. apply Z.eqb_neq.
  unfold compareRows in Hlt. destruct d; lia.
Qed.

Lemma filter_all {A} (p : A -> bool) l :
  (forall x, In x l -> p x = true) -> filter p l = l.
Proof.
  induction l as [|x l IH]; intros H; simpl; [reflexivity|].
  rewrite (H x (or_introl eq_refl)). f_equal. apply IH. intros y Hy. apply H. right. exact Hy.
Qed.

Lemma filterRows_again rows searchTerm l :
  (forall row, In row l -> In row (filterRows rows searchTerm)) ->
  filterRows l searchTerm = l.
Proof.
  unfold filterRows. destruct (truthy (trim searchTerm)); [|reflexivity].
  intros H. apply filter_all. intros row Hin. apply H, filter_In in Hin. tauto.
Qed.

(** X25. Running the filter and sort again on their own result, with the
    same term and sort selection, changes nothing; this is what happens
    when the memo re-runs on the array it has sorted in place. *)
Theorem processedData_idempotent :
  forall rows searchTerm sortConfig,
    processedData (processedData rows searchTerm sortConfig) searchTerm sortConfig
    = processedData rows searchTerm sortConfig.
Proof.
  intros rows searchTerm [[k|] d].
  - unfold processedData at 1. simpl SortConfig.key. simpl SortConfig.direction.
    rewrite (filterRows_again rows searchTerm).
    + unfold processedData. simpl. apply sortBy_of_sorted, compareRows_sorted.
    + intros row. apply processedData_In.
  - unfold processedData. simpl. apply (filterRows_again rows searchTerm). auto.
Qed.

Lemma StronglySorted_distinct {A} (f : A -> Z) (R Q : A -> A -> Prop) l :
  (forall a b, R a b -> f a <> f b -> Q a b) ->
  StronglySorted R l -> NoDup (map f l) -> StronglySorted Q l.
Proof.
  intros H. induction 1 as [|x l Hs IH Hall]; intros Hnd; constructor.
  - apply IH. inversion Hnd; assumption.
  - inversion Hnd as [|? ? Hnotin _]; subst.
    apply Forall_forall. intros b Hb. rewrite Forall_forall in Hall.
    apply H; [apply Hall, Hb|].
    intros E. apply Hnotin. rewrite E. apply in_map, Hb.
Qed.

(** Two strictly ascending lists with the same elements are equal. *)
Lemma ascending_unique {A} (f : A -> Z) l1 l2 :
  StronglySorted (fun a b => f a < f b) l1 ->
  StronglySorted (fun a b => f a < f b) l2 ->
  Permutation l1 l2 -> l1 = l2.
Proof.
  intros H1. revert l2. induction H1 as [|x l1 Hs1 IH Hall1]; intros l2 H2 Hp.
  - apply Permutation_nil in Hp. auto.
  - destruct l2 as [|y l2]; [apply Permutation_sym, Permutation_nil in Hp; discriminate|].
    inversion H2 as [|? ? Hs2 Hall2]; subst.
    rewrite Forall_forall in Hall1, Hall2.
    assert (Hxy : x = y).
    { assert (Hx : In x (y :: l2)) by (eapply Permutation_in; [exact Hp | left; reflexivity]).
      assert (Hy : In y (x :: l1))
        by (eapply Permutation_in; [apply Permutation_sym, Hp | left; reflexivity]).
      destruct Hx as [Hx|Hx]; [auto|]. destruct Hy as [Hy|Hy]; [auto|].
      specialize (Hall1 y Hy). specialize (Hall2 x Hx). lia. }
    subst y. f_equal. apply IH; [exact Hs2|].
    eapply Permutation_cons_inv. exact Hp.
Qed.

(** X26. Sort toggle: when the key field has a different value in every
    filtered row, sorting ascending gives the reverse of sorting
    descending. *)
Theorem processedData_toggle_reverses :
  forall rows searchTerm k,
    NoDup (map (EnterpriseStat.field k) (filterRows rows searchTerm)) ->
    processedData rows searchTerm (SortConfig.mk (Some k) SortDirection.asc)
    = rev (processedData rows searchTerm (SortConfig.mk (Some k) SortDirection.desc)).
Proof.
  intros rows searchTerm k Hnd.
  destruct (processedData_order rows searchTerm k SortDirection.asc) as (Ha & Pa & _).
  destruct (processedData_order rows searchTerm k SortDirection.desc) as (Hd & Pd & _).
  apply (ascending_unique (EnterpriseStat.field k)).
  - apply (StronglySorted_distinct (EnterpriseStat.field k) (inOrder k SortDirection.asc));
      [simpl; intros; lia | exact Ha |].
    eapply Permutation_NoDup; [apply Permutation_map, Pa | exact Hnd].
  - apply (StronglySorted_rev
             (fun a b => EnterpriseStat.field k b < EnterpriseStat.field k a)).
    apply (StronglySorted_distinct (EnterpriseStat.field k) (inOrder k SortDirection.desc));
      [simpl; intros; lia | exact Hd |].
    eapply Permutation_NoDup; [apply Permutation_map, Pd | exact Hnd].
  - eapply perm_trans; [apply Permutation_sym, Pa|].
    eapply perm_trans; [apply Pd | apply Permutation_rev].
Qed.

Lemma processedData_toggle_reverses_sample :
  NoDup (map (EnterpriseStat.field SortKey.high)
           (filterRows [sampleRow "1" "a" 3; sampleRow "2" "b" 9; sampleRow "3" "c" 5] ""))
  /\ processedData [sampleRow "1" "a" 3; sampleRow "2" "b" 9; sampleRow "3" "c" 5] ""
       (SortConfig.mk (Some SortKey.high) SortDirection.asc)
     = rev (processedData [sampleRow "1" "a" 3; sampleRow "2" "b" 9; sampleRow "3" "c" 5] ""
              (SortConfig.mk (Some SortKey.high) SortDirection.desc)).
Proof.
  assert (H : NoDup (map (EnterpriseStat.field SortKey.high)
                       (filterRows [sampleRow "1" "a" 3; sampleRow "2" "b" 9;
                                    sampleRow "3" "c" 5] ""))).
  { simpl. repeat constructor; simpl; intuition discriminate. }
  split; [exact H|].
  exact (processedData_toggle_reverses _ "" SortKey.high H).
Defined.

(** With a tie the two directions are not each other's reverse: the tied
    rows keep their order in both. *)
Example processedData_toggle_with_tie :
  let rows := [sampleRow "1" "a" 4; sampleRow "2" "b" 4] in
  processedData rows "" (SortConfig.mk (Some SortKey.high) SortDirection.asc) = rows
  /\ processedData rows "" (SortConfig.mk (Some SortKey.high) SortDirection.desc) = rows.
Proof. split; reflexivity. Qed.

(** * Rates *)

Lemma percentOf_bounds num den :
  0 <= num <= den -> (0 <= percentOf num den)%Q /\ (percentOf num den <= 100)%Q.
Proof.
  intros H. unfold percentOf. destruct (0 <? den) eqn:E.
  - apply Z.ltb_lt in E. destruct den as [|p|p]; try lia.
    unfold Qle, Qdiv, Qmult, Qinv, inject_Z. simpl. split; nia.
  - split; [apply Qle_refl | discriminate].
Qed.

Lemma weightSum_valid_le l :
  Forall nonNegativeWeight l ->
  weightSum (fun d => isReviewed d && hasResult ReviewResult.TRUE_FRAUD d) l
  + weightSum (fun d => isReviewed d && hasResult ReviewResult.SUSPECTED_FRAUD d) l
  + weightSum (fun d => isReviewed d && hasResult ReviewResult.ILLEGAL_BUSINESS d) l
  <= weightSum isReviewed l.
Proof.
  induction 1 as [|d l Hd _ IH]; [rewrite !weightSum_nil; lia|].
  rewrite !weightSum_cons. revert IH.
  generalize
    (weightSum (fun d => isReviewed d && hasResult ReviewResult.TRUE_FRAUD d) l)
    (weightSum (fun d => isReviewed d && hasResult ReviewResult.SUSPECTED_FRAUD d) l)
    (weightSum (fun d => isReviewed d && hasResult ReviewResult.ILLEGAL_BUSINESS d) l)
    (weightSum isReviewed l).
  intros a b c t IH. pose proof (orOne_nonneg d Hd). unfold isReviewed, hasResult.
  destruct (RiskRecord.reviewStatus d), (RiskRecord.reviewResult d); simpl; lia.
Qed.

(** X27. Rate boundedness: when no weight is negative, the review
    completion rate, the high-risk rate and the accuracy rate of
    [calculateStats] all lie between 0 and 100. *)
Theorem calculateStats_rates_bounded :
  forall data,
    Forall nonNegativeWeight data ->
    ((0 <= DashboardStats.reviewCompletionRate (calculateStats data))%Q
     /\ (DashboardStats.reviewCompletionRate (calculateStats data) <= 100)%Q)
    /\ ((0 <= DashboardStats.highRiskRate (calculateStats data))%Q
        /\ (DashboardStats.highRiskRate (calculateStats data) <= 100)%Q)
    /\ ((0 <= DashboardStats.accuracyRate (calculateStats data))%Q
        /\ (DashboardStats.accuracyRate (calculateStats data) <= 100)%Q).
Proof.
  intros data H.
  assert (Hnn : forall p, 0 <= weightSum p data) by (intros p; apply weightSum_nonneg, H).
  unfold calculateStats. rewrite tally_sums.
  cbv beta iota zeta delta
    [DashboardStats.reviewCompletionRate DashboardStats.highRiskRate
     DashboardStats.accuracyRate Tally.total Tally.highRisk Tally.medRisk
     Tally.highRiskReviewed Tally.mediumRiskReviewed Tally.reviewedTotal
     Tally.trueFraud Tally.suspFraud Tally.illegal Tally.zero].
  split; [|split]; apply percentOf_bounds; split.
  - pose proof (Hnn (fun d => isReviewed d && isLevel RiskLevel.HIGH d)).
    pose proof (Hnn (fun d => isReviewed d && isLevel RiskLevel.MEDIUM d)). lia.
  - assert (weightSum (fun d => isReviewed d && isLevel RiskLevel.HIGH d) data
            <= weightSum (isLevel RiskLevel.HIGH) data)
      by (apply weightSum_mono; [intros d Hd; apply andb_true_iff in Hd; apply Hd | exact H]).
    assert (weightSum (fun d => isReviewed d && isLevel RiskLevel.MEDIUM d) data
            <= weightSum (isLevel RiskLevel.MEDIUM) data)
      by (apply weightSum_mono; [intros d Hd; apply andb_true_iff in Hd; apply Hd | exact H]).
    lia.
  - apply Hnn.
  - assert (weightSum (isLevel RiskLevel.HIGH) data <= weightSum (fun _ => true) data)
      by (apply weightSum_mono; [reflexivity | exact H]). lia.
  - pose proof (Hnn (fun d => isReviewed d && hasResult ReviewResult.TRUE_FRAUD d)).
    pose proof (Hnn (fun d => isReviewed d && hasResult ReviewResult.SUSPECTED_FRAUD d)).
    pose proof (Hnn (fun d => isReviewed d && hasResult ReviewResult.ILLEGAL_BUSINESS d)).
    lia.
  - pose proof (weightSum_valid_le data H). lia.
Qed.

Lemma calculateStats_rates_bounded_scenario :
  Forall nonNegativeWeight scenario
  /\ (DashboardStats.reviewCompletionRate (calculateStats scenario) <= 100)%Q.
Proof.
  assert (H : Forall nonNegativeWeight scenario)
    by (unfold scenario;
        repeat (apply Forall_cons; [unfold nonNegativeWeight, weight; simpl; lia|]);
        apply Forall_nil).
  split; [exact H|].
  exact (proj2 (proj1 (calculateStats_rates_bounded scenario H))).
Defined.

(** With a negative weight a rate can leave the range. *)
Example calculateStats_rate_above_100 :
  let s :=
    calculateStats
      [ sampleRecord "7501556" "A" 0 RiskLevel.HIGH ReviewStatus.REVIEWED
          ReviewResult.TRUE_FRAUD (Some 3);
        sampleRecord "7501556" "A" 0 RiskLevel.HIGH ReviewStatus.PENDING
          ReviewResult.PENDING (Some (-1)) ] in
  (DashboardStats.reviewCompletionRate s == 150)%Q.
Proof. reflexivity. Qed.

(** ** The entries of the trend chart *)

Lemma trendEntries_entry tz data e :
  In e (RiskTrendChart.dailyStats tz data) ->
  In (TrendEntry.date e, e)
    (fold_left
       (groupStep Z.eqb (dayOf tz) (fun d => TrendEntry.mk (dayOf tz d) 0 0 0)
          RiskTrendChart.addToEntry) data []).
Proof.
  unfold RiskTrendChart.dailyStats, map_values. rewrite <- in_rev. intros Hin.
  apply in_map_iff in Hin. destruct Hin as [[k v] [Heq Hin]]. simpl in Heq. subst v.
  replace (TrendEntry.date e) with k; [exact Hin|]. symmetry.
  apply (group_values_invariant Z.eqb Z.eqb_eq (dayOf tz)
           (fun d => TrendEntry.mk (dayOf tz d) 0 0 0) RiskTrendChart.addToEntry
           (fun k v => TrendEntry.date v = k) data); auto.
  - intros r. unfold RiskTrendChart.addToEntry.
    destruct (RiskRecord.riskLevel r); reflexivity.
  - intros r k' v' H. unfold RiskTrendChart.addToEntry.
    destruct (RiskRecord.riskLevel r); exact H.
Qed.

Ltac trend_counts_tac :=
  split; [reflexivity|];
  let r := fresh "r" in let v := fresh "v" in
  intros r v; unfold RiskTrendChart.addToEntry, isLevel;
  destruct (RiskRecord.riskLevel r); simpl; lia.

(** X28. The trend chart has exactly one entry per local calendar day:
    no two entries share a day, and a day has an entry exactly when some
    record falls on it.  The three tier values of an entry are the tier
    counters that [calculateStats] computes from the records of that day;
    records of the NORMAL tier add to no value. *)
Theorem trend_entry_is_calculateStats :
  forall tz data,
    NoDup (map TrendEntry.date (RiskTrendChart.dailyStats tz data))
    /\ (forall day,
          In day (map TrendEntry.date (RiskTrendChart.dailyStats tz data)) <->
          exists r, In r data /\ dayOf tz r = day)
    /\ forall e,
         In e (RiskTrendChart.dailyStats tz data) ->
         let own := recordsOfDay tz (TrendEntry.date e) data in
         TrendEntry.high e = DashboardStats.highRiskCount (calculateStats own)
         /\ TrendEntry.medium e = DashboardStats.mediumRiskCount (calculateStats own)
         /\ TrendEntry.low e = DashboardStats.lowRiskCount (calculateStats own).
Proof.
  intros tz data. split; [|split].
  - unfold RiskTrendChart.dailyStats. rewrite map_rev, trendEntries_dates.
    apply NoDup_rev, (group_keys_NoDup Z.eqb Z.eqb_eq).
  - intros day. unfold RiskTrendChart.dailyStats.
    rewrite map_rev, trendEntries_dates, <- in_rev.
    apply (group_keys_In Z.eqb Z.eqb_eq).
  - intros e Hin own. apply trendEntries_entry in Hin.
    destruct (calculateStats_counters own) as (_ & -> & -> & -> & _).
    repeat split;
      apply (rollup_value Z.eqb Z.eqb_eq (dayOf tz)
               (fun d => TrendEntry.mk (dayOf tz d) 0 0 0) RiskTrendChart.addToEntry
               _ _ data _ e); try exact Hin; trend_counts_tac.
Qed.

(** * The exported text *)









(** A row with a comma in its name exports as ten fields under nine
    headers. *)
Example handleExport_comma_in_name :
  map (EnterpriseExport.occurrences EnterpriseExport.comma)
    (EnterpriseExport.csvLines [sampleRow "7" "Acme, Inc" 3])
  = [8%nat; 9%nat].
Proof. reflexivity. Qed.
